(** * The eBay restock bot: token cache, request builder, response reporter
      and poll loop of [ebay-seller-restock-bot.js], embedded in Rocq.

    The program is a Node.js script.  Its functions read the clock, post to
    two HTTP endpoints, write to the console and mutate two module-level
    variables ([cachedToken], [tokenExpiresAt]).  They are embedded in a
    monad [M] that reads the outside world from oracles, threads the
    module-level variables, collects the visible events of a run and
    propagates JavaScript exceptions.

    Not modelled: the content of the two requests (headers, the form body
    of the token request; the XML body and the token of the Trading request
    are kept).  The functions take the constants of lines 21-34 as
    [settings]; [constants] computes them from the environment and [script]
    puts the two together.  Cycles run one after the other: a cycle has
    finished when the timer fires again.

    Numbers: every number the program computes with (millisecond
    timestamps, token lifetimes in seconds, the target quantity) is an
    integer far below 2^53, where JavaScript's doubles are exact; they are
    modelled as [Z], with [NaN] added.  Fractions and infinities are outside
    the model. *)

From Stdlib Require Import ZArith String Ascii List Bool Lia.
From Stdlib Require Import DecimalString.
Import ListNotations.

Local Open Scope string_scope.
Local Open Scope Z_scope.

(** ** JavaScript values *)

#[local] Set Warnings "-register-all".

Inductive num : Type :=
| Fin (z : Z)
| NaN.

Inductive jsval : Type :=
| JUndefined
| JNull
| JBool (b : bool)
| JNum (n : num)
| JStr (s : string)
| JArr (elems : list jsval)
| JObj (props : list (string * jsval)).

(** What [throw]/a rejected promise carries.  An axios error has a
    [response] (status and body) when the server answered with a non-2xx
    status and none when the transport failed; every error has a
    [message]. *)
Inductive exn : Type :=
| AxiosError (response : option (Z * jsval)) (message : string)
| TypeError (message : string)
| OtherError (message : string).

Definition num_add (a b : num) : num :=
  match a, b with
  | Fin x, Fin y => Fin (x + y)
  | _, _ => NaN
  end.

Definition num_sub (a b : num) : num :=
  match a, b with
  | Fin x, Fin y => Fin (x - y)
  | _, _ => NaN
  end.

Definition num_mul (a b : num) : num :=
  match a, b with
  | Fin x, Fin y => Fin (x * y)
  | _, _ => NaN
  end.

(** [a < b] on numbers: false as soon as one side is [NaN]. *)
Definition num_ltb (a b : num) : bool :=
  match a, b with
  | Fin x, Fin y => x <? y
  | _, _ => false
  end.

(** ToBoolean: what [if (v)], [!v], [v && _] and [v || _] test. *)
Definition truthy (v : jsval) : bool :=
  match v with
  | JUndefined | JNull => false
  | JBool b => b
  | JNum (Fin z) => negb (z =? 0)
  | JNum NaN => false
  | JStr s => negb (s =? "")%string
  | JArr _ | JObj _ => true
  end.

(** [a || b] *)
Definition js_or (a b : jsval) : jsval := if truthy a then a else b.

Fixpoint lookup (name : string) (props : list (string * jsval)) : option jsval :=
  match props with
  | [] => None
  | (k, v) :: rest => if (k =? name)%string then Some v else lookup name rest
  end.

(** A process environment variable: a string, or absent ([undefined]). *)
Definition env_truthy (v : option string) : bool :=
  match v with
  | None => false
  | Some s => negb (s =? "")%string
  end.

(** Template-literal rendering of a number, [`${n}`]. *)
Definition num_to_string (n : num) : string :=
  match n with
  | Fin z => NilZero.string_of_int (Z.to_int z)
  | NaN => "NaN"
  end.

(** ** The outside world, the program's variables, and what a run shows *)

Inductive completion (A : Type) : Type :=
| Return (a : A)
| Throw (e : exn).
Arguments Return {A} a.
Arguments Throw {A} e.

(** Outcome of one [axios.post]: a 2xx answer resolves with [res.data];
    anything else rejects. *)
Inductive http_outcome : Type :=
| Respond (data : jsval)
| Reject (response : option (Z * jsval)) (message : string).

(** The oracles.  [Date_now k] is the k-th reading of [Date.now()];
    [identity_post k] and [trading_post k] are the outcomes of the k-th POST
    to the OAuth token endpoint and to the Trading endpoint;
    [parseStringPromise] is xml2js's parser with the options of line 115;
    [ToNumber_object] is the runtime's conversion to a number of a string,
    an array or an object. *)
Record world : Type := {
  Date_now : nat -> Z;
  identity_post : nat -> http_outcome;
  trading_post : nat -> http_outcome;
  parseStringPromise : jsval -> completion jsval;
  ToNumber_object : jsval -> num
}.

(** The module-level variables of lines 36-37, and how far each oracle has
    been consumed. *)
Record state : Type := {
  cachedToken : jsval;
  tokenExpiresAt : num;
  clock_reads : nat;
  identity_posts : nat;
  trading_posts : nat
}.

(** lines 36-37 *)
Definition initial_state : state :=
  {| cachedToken := JNull; tokenExpiresAt := Fin 0;
     clock_reads := 0; identity_posts := 0; trading_posts := 0 |}.

(** One constructor per console call of the source; the arguments are the
    values passed to the call or interpolated into its template. *)
Inductive logline : Type :=
| LogMissingEnv                                        (* line 17 *)
| LogAuthRefreshing                                    (* line 51 *)
| LogAuthRefreshed (expiresIn : jsval)                 (* line 63 *)
| LogTradingErrorHttp (status : Z)                     (* line 104 *)
| LogTradingErrorData (data : jsval)                   (* line 105 *)
| LogTradingError (message : string)                   (* line 107 *)
| LogParseUnexpected (parsed : jsval)                  (* line 122 *)
| LogAck (ack : jsval)                                 (* line 127 *)
| LogError (code short long : jsval)                   (* lines 132-137 *)
| LogItem (itemID : jsval) (qty : num) (sku : option jsval)  (* lines 147-150 *)
| LogPollStart                                         (* line 157 *)
| LogInfoUpdating (ids : list string) (qty : num)      (* lines 158-160 *)
| LogFatalToken                                        (* line 166 *)
| LogDebugSending (count : nat)                        (* line 171 *)
| LogFatalCall                                         (* line 177 *)
| LogPollEnd                                           (* line 180 *)
| LogStarting                                          (* line 185 *)
| LogEnvironment (sandbox : bool) (site : string)      (* line 186 *)
| LogPolling (poll_ms : num)                           (* line 187 *)
| LogProcessItemsError (e : exn).                      (* line 193 *)

Inductive event : Type :=
| Console (l : logline)
| PostIdentity
| PostTrading (xmlBody : string) (accessToken : jsval)
| Exit (code : Z).

(** ** The monad *)

Definition M (A : Type) : Type :=
  world -> state -> list event * state * completion A.

Definition ret {A} (a : A) : M A := fun _ s => ([], s, Return a).

Definition throw {A} (e : exn) : M A := fun _ s => ([], s, Throw e).

Definition bind {A B} (m : M A) (k : A -> M B) : M B :=
  fun w s =>
    match m w s with
    | (t1, s1, Return a) =>
        match k a w s1 with
        | (t2, s2, r) => ((t1 ++ t2)%list, s2, r)
        end
    | (t1, s1, Throw e) => (t1, s1, Throw e)
    end.

(** [try { m } catch (err) { h err }] *)
Definition try_catch {A} (m : M A) (h : exn -> M A) : M A :=
  fun w s =>
    match m w s with
    | (t1, s1, Return a) => (t1, s1, Return a)
    | (t1, s1, Throw e) =>
        match h e w s1 with
        | (t2, s2, r) => ((t1 ++ t2)%list, s2, r)
        end
    end.

Declare Scope js_scope.
Delimit Scope js_scope with js.
Notation "x <- m ;; k" := (bind m (fun x => k))
  (at level 61, m at next level, right associativity) : js_scope.
Notation "m ;; k" := (bind m (fun _ => k))
  (at level 61, right associativity) : js_scope.
Local Open Scope js_scope.

Definition emit (e : event) : M unit := fun _ s => ([e], s, Return tt).

Definition console (l : logline) : M unit := emit (Console l).

(** [Date.now()] *)
Definition Date_now_call : M Z :=
  fun w s =>
    ([], {| cachedToken := cachedToken s; tokenExpiresAt := tokenExpiresAt s;
            clock_reads := S (clock_reads s);
            identity_posts := identity_posts s;
            trading_posts := trading_posts s |},
     Return (Date_now w (clock_reads s))).

Definition read {A} (f : state -> A) : M A := fun _ s => ([], s, Return (f s)).

Definition set_cachedToken (v : jsval) : M unit :=
  fun _ s =>
    ([], {| cachedToken := v; tokenExpiresAt := tokenExpiresAt s;
            clock_reads := clock_reads s;
            identity_posts := identity_posts s;
            trading_posts := trading_posts s |}, Return tt).

Definition set_tokenExpiresAt (n : num) : M unit :=
  fun _ s =>
    ([], {| cachedToken := cachedToken s; tokenExpiresAt := n;
            clock_reads := clock_reads s;
            identity_posts := identity_posts s;
            trading_posts := trading_posts s |}, Return tt).

Definition settle (o : http_outcome) : completion jsval :=
  match o with
  | Respond data => Return data
  | Reject response message => Throw (AxiosError response message)
  end.

(** [(await axios.post(IDENTITY_BASE, ...)).data] *)
Definition axios_post_identity : M jsval :=
  fun w s =>
    ([PostIdentity],
     {| cachedToken := cachedToken s; tokenExpiresAt := tokenExpiresAt s;
        clock_reads := clock_reads s;
        identity_posts := S (identity_posts s);
        trading_posts := trading_posts s |},
     settle (identity_post w (identity_posts s))).

(** [(await axios.post(TRADING_ENDPOINT, xmlBody, ...)).data] *)
Definition axios_post_trading (xmlBody : string) (accessToken : jsval) : M jsval :=
  fun w s =>
    ([PostTrading xmlBody accessToken],
     {| cachedToken := cachedToken s; tokenExpiresAt := tokenExpiresAt s;
        clock_reads := clock_reads s;
        identity_posts := identity_posts s;
        trading_posts := S (trading_posts s) |},
     settle (trading_post w (trading_posts s))).

(** [null] and [undefined], the two values without properties. *)
Definition nullish (v : jsval) : bool :=
  match v with
  | JUndefined | JNull => true
  | _ => false
  end.

(** The property [name] of a value that has properties: an object yields
    its own property or [undefined]; any other value yields [undefined]
    (none of the names this program reads is defined on a built-in
    prototype). *)
Definition field (v : jsval) (name : string) : jsval :=
  match v with
  | JObj props =>
      match lookup name props with
      | Some x => x
      | None => JUndefined
      end
  | _ => JUndefined
  end.

(** Property read [v.name]: throws on [null] and [undefined]. *)
Definition member (v : jsval) (name : string) : M jsval :=
  if nullish v then throw (TypeError "Cannot read properties")
  else ret (field v name).

(** ToNumber, as applied by [*]. *)
Definition to_number (w : world) (v : jsval) : num :=
  match v with
  | JNum n => n
  | JUndefined => NaN
  | JNull => Fin 0
  | JBool b => Fin (if b then 1 else 0)
  | JStr _ | JArr _ | JObj _ => ToNumber_object w v
  end.

Definition ToNumber (v : jsval) : M num :=
  fun w s => ([], s, Return (to_number w v)).

(** ** TokenCache: [getAccessToken], lines 40-65 *)

(** Lines 46-49 build the Authorization header and the form body from the
    credentials; they change nothing and cannot throw.  [Date.now()] is read
    a second time at line 62, after the answer has arrived. *)
Definition getAccessToken : M jsval :=
  now <- Date_now_call ;;
  token <- read cachedToken ;;
  expiry <- read tokenExpiresAt ;;
  if truthy token && num_ltb (Fin now) (num_sub expiry (Fin 60000)) then
    ret token
  else
    console LogAuthRefreshing ;;
    data <- axios_post_identity ;;
    access_token <- member data "access_token" ;;
    set_cachedToken access_token ;;
    expires_in <- member data "expires_in" ;;
    let expiresIn := js_or expires_in (JNum (Fin 3600)) in
    now' <- Date_now_call ;;
    seconds <- ToNumber expiresIn ;;
    set_tokenExpiresAt (num_add (Fin now') (num_mul seconds (Fin 1000))) ;;
    console (LogAuthRefreshed expiresIn) ;;
    read cachedToken.

(** ** RequestBuilder: [buildReviseInventoryStatusRequest], lines 68-83 *)

Definition nl : string := String "010"%char "".
Definition dq : string := String "034"%char "".

(** The template of lines 71-75, for one [id]. *)
Definition inventoryStatusBlock (quantity : num) (id : string) : string :=
  nl ++ "    <InventoryStatus>" ++
  nl ++ "      <ItemID>" ++ id ++ "</ItemID>" ++
  nl ++ "      <Quantity>" ++ num_to_string quantity ++ "</Quantity>" ++
  nl ++ "    </InventoryStatus>".

Definition buildReviseInventoryStatusRequest
    (itemIds : list string) (quantity : num) : string :=
  let inventoryStatusBlocks :=
    String.concat "" (map (inventoryStatusBlock quantity) itemIds) in
  "<?xml version=" ++ dq ++ "1.0" ++ dq ++ " encoding=" ++ dq ++ "utf-8" ++ dq ++ "?>" ++
  nl ++ "<ReviseInventoryStatusRequest xmlns=" ++ dq ++
        "urn:ebay:apis:eBLBaseComponents" ++ dq ++ ">" ++
  nl ++ "  " ++ inventoryStatusBlocks ++
  nl ++ "</ReviseInventoryStatusRequest>".

(** Number of positions of [s] at which [pat] starts. *)
Fixpoint occurrences (pat s : string) : nat :=
  match s with
  | EmptyString => 0
  | String _ rest =>
      ((if String.prefix pat s then 1 else 0) + occurrences pat rest)%nat
  end.

(** ** ApiClient: [callTradingAPI], lines 86-111 *)

Definition callTradingAPI (xmlBody : string) (accessToken : jsval) : M jsval :=
  try_catch
    (axios_post_trading xmlBody accessToken)
    (fun err =>
       match err with
       | AxiosError (Some (status, data)) _ =>
           console (LogTradingErrorHttp status) ;;
           console (LogTradingErrorData data)
       | AxiosError None message
       | TypeError message
       | OtherError message =>
           console (LogTradingError message)
       end ;;
       throw err).

(** ** ResponseInterpreter: [parseAndLogResponse], lines 114-153 *)

(** [await xml2js.parseStringPromise(xml, {explicitArray: false, ...})] *)
Definition xml2js_parse (xml : jsval) : M jsval :=
  fun w s => ([], s, parseStringPromise w xml).

(** [Array.isArray(v) ? v : [v]], lines 130 and 142-144 *)
Definition as_array (v : jsval) : list jsval :=
  match v with
  | JArr elems => elems
  | _ => [v]
  end.

(** [for (const x of l) { body x }] *)
Fixpoint for_of {A} (l : list A) (body : A -> M unit) : M unit :=
  match l with
  | [] => ret tt
  | x :: rest => body x ;; for_of rest body
  end.

(** The body of the loop of lines 131-138. *)
Definition log_error (e : jsval) : M unit :=
  code <- member e "ErrorCode" ;;
  short <- member e "ShortMessage" ;;
  long <- member e "LongMessage" ;;
  console (LogError code short (js_or long (JStr ""))).

(** The body of the loop of lines 146-151. *)
Definition log_item (DESIRED_QTY : num) (s : jsval) : M unit :=
  itemID <- member s "ItemID" ;;
  sku <- member s "SKU" ;;
  console (LogItem itemID DESIRED_QTY (if truthy sku then Some sku else None)).

Definition parseAndLogResponse (DESIRED_QTY : num) (xml : jsval) : M unit :=
  parsed <- xml2js_parse xml ;;
  resp <- member parsed "ReviseInventoryStatusResponse" ;;
  if negb (truthy resp) then
    console (LogParseUnexpected parsed)
  else
    ack <- member resp "Ack" ;;
    console (LogAck ack) ;;
    Errors <- member resp "Errors" ;;
    (if truthy Errors then for_of (as_array Errors) log_error else ret tt) ;;
    InventoryStatus <- member resp "InventoryStatus" ;;
    (if truthy InventoryStatus
     then for_of (as_array InventoryStatus) (log_item DESIRED_QTY)
     else ret tt).

(** ** PollLoop: [processItems], lines 156-181, and the start, lines 184-196 *)

(** The constants of lines 21-34, computed once from the environment. *)
Record settings : Type := {
  IS_SANDBOX : bool;
  ITEM_IDS : list string;
  DESIRED_QTY : num;
  POLL_MS : num
}.

(** line 30 *)
Definition EBAY_SITE_ID (cfg : settings) : string :=
  if IS_SANDBOX cfg then "0" else "77".

Definition processItems (cfg : settings) : M unit :=
  console LogPollStart ;;
  console (LogInfoUpdating (ITEM_IDS cfg) (DESIRED_QTY cfg)) ;;
  acquired <- try_catch
                (token <- getAccessToken ;; ret (Some token))
                (fun _ => console LogFatalToken ;; ret None) ;;
  match acquired with
  | None => ret tt
  | Some token =>
      let xmlBody :=
        buildReviseInventoryStatusRequest (ITEM_IDS cfg) (DESIRED_QTY cfg) in
      console (LogDebugSending (length (ITEM_IDS cfg))) ;;
      try_catch
        (xmlResponse <- callTradingAPI xmlBody token ;;
         parseAndLogResponse (DESIRED_QTY cfg) xmlResponse)
        (fun _ => console LogFatalCall) ;;
      console LogPollEnd
  end.

(** The four required variables of [process.env], line 16. *)
Record environment : Type := {
  EBAY_CLIENT_ID : option string;
  EBAY_CLIENT_SECRET : option string;
  EBAY_REFRESH_TOKEN : option string;
  TARGET_ITEM_IDS : option string
}.

(** The condition of line 16. *)
Definition missing_env (env : environment) : bool :=
  negb (env_truthy (EBAY_CLIENT_ID env))
  || negb (env_truthy (EBAY_CLIENT_SECRET env))
  || negb (env_truthy (EBAY_REFRESH_TOKEN env))
  || negb (env_truthy (TARGET_ITEM_IDS env)).

(** How the process stands after a run: still alive, ended by
    [process.exit], or brought down by a rejection nobody handles. *)
Inductive status : Type :=
| Running
| Exited (code : Z)
| Crashed (e : exn).

(** The timer of lines 191-195 firing [ticks] times, each cycle having
    finished before the next tick. *)
Fixpoint interval (ticks : nat) (cfg : settings) : M unit :=
  match ticks with
  | O => ret tt
  | S n =>
      try_catch (processItems cfg)
                (fun err => console (LogProcessItemsError err)) ;;
      interval n cfg
  end.

(** The script from its first line up to the [ticks]-th firing of the
    timer. *)
Definition main (env : environment) (cfg : settings) (ticks : nat)
    (w : world) : list event * state * status :=
  if missing_env env then
    ([Console LogMissingEnv; Exit 1], initial_state, Exited 1)
  else
    match (console LogStarting ;;
           console (LogEnvironment (IS_SANDBOX cfg) (EBAY_SITE_ID cfg)) ;;
           console (LogPolling (POLL_MS cfg)) ;;
           processItems cfg ;;
           interval ticks cfg) w initial_state with
    | (t, s, Return _) => (t, s, Running)
    | (t, s, Throw e) => (t, s, Crashed e)
    end.

(** ** Vocabulary of the properties *)

(** The three components of a run. *)
Definition events {R} (r : list event * state * R) : list event :=
  fst (fst r).
Definition final {R} (r : list event * state * R) : state :=
  snd (fst r).
Definition outcome {R} (r : list event * state * R) : R :=
  snd r.

(** A computation that never throws, and one that shows no event of the
    kind [p]. *)
Definition returns {A} (m : M A) : Prop :=
  forall w s, exists a, outcome (m w s) = Return a.

Definition silent {A} (p : event -> bool) (m : M A) : Prop :=
  forall w s, filter p (events (m w s)) = [].

(** The state after one more clock reading. *)
Definition tick (s : state) : state :=
  {| cachedToken := cachedToken s; tokenExpiresAt := tokenExpiresAt s;
     clock_reads := S (clock_reads s);
     identity_posts := identity_posts s; trading_posts := trading_posts s |}.

(** The state after the refresh request has gone out. *)
Definition posted (s : state) : state :=
  {| cachedToken := cachedToken s; tokenExpiresAt := tokenExpiresAt s;
     clock_reads := S (clock_reads s);
     identity_posts := S (identity_posts s);
     trading_posts := trading_posts s |}.

(** The state after the Trading request has gone out. *)
Definition called (s : state) : state :=
  {| cachedToken := cachedToken s; tokenExpiresAt := tokenExpiresAt s;
     clock_reads := clock_reads s;
     identity_posts := identity_posts s;
     trading_posts := S (trading_posts s) |}.

(** The test of line 42. *)
Definition reuse_test (now : Z) (s : state) : bool :=
  truthy (cachedToken s)
  && num_ltb (Fin now) (num_sub (tokenExpiresAt s) (Fin 60000)).

(** A cached token exists at the time [now] and [now] is more than 60
    seconds before its recorded expiry.  The token cache holds [null]
    before the first refresh; a token is a non-empty string, and a cache
    holding a falsy value holds no token. *)
Definition reusable (now : Z) (s : state) : Prop :=
  truthy (cachedToken s) = true /\
  exists expiry, tokenExpiresAt s = Fin expiry /\ now + 60000 < expiry.

(** No token is cached, or the recorded expiry (when it is a number) is
    within 60 seconds of [now] or already behind it. *)
Definition stale (now : Z) (s : state) : Prop :=
  truthy (cachedToken s) = false \/
  forall expiry, tokenExpiresAt s = Fin expiry -> expiry <= now + 60000.

(** The lifetime in seconds that a token response carries, when it carries
    one, and the expiry the specification asks for: the current time plus
    that lifetime, 3600 seconds when the response carries none. *)
Definition carried_lifetime (data : jsval) : option Z :=
  match field data "expires_in" with
  | JNum (Fin n) => Some n
  | _ => None
  end.

Definition specified_expiry (now : Z) (data : jsval) : num :=
  match carried_lifetime data with
  | Some n => Fin (now + n * 1000)
  | None => Fin (now + 3600 * 1000)
  end.

(** The network requests among the events of a run. *)
Definition is_post (e : event) : bool :=
  match e with
  | PostIdentity | PostTrading _ _ => true
  | _ => false
  end.

Definition is_refresh (e : event) : bool :=
  match e with
  | PostIdentity => true
  | _ => false
  end.

Definition requests (t : list event) : list event := filter is_post t.

Definition refreshes (t : list event) : nat := length (filter is_refresh t).

(** The text around the item blocks of a request, lines 79-82. *)
Definition xml_open : string :=
  "<?xml version=" ++ dq ++ "1.0" ++ dq ++ " encoding=" ++ dq ++ "utf-8" ++ dq ++ "?>" ++
  nl ++ "<ReviseInventoryStatusRequest xmlns=" ++ dq ++
        "urn:ebay:apis:eBLBaseComponents" ++ dq ++ ">" ++
  nl ++ "  ".

Definition xml_close : string := nl ++ "</ReviseInventoryStatusRequest>".

(** xml2js under [explicitArray: false] (line 116): the child elements of
    one name are held as the child itself when there is one and as an array
    when there are several; with none the property does not exist. *)
Definition explicitArray_false (children : list jsval) : jsval :=
  match children with
  | [] => JUndefined
  | [child] => child
  | _ => JArr children
  end.

(** An element that has child elements is parsed to an object. *)
Definition is_object (v : jsval) : bool :=
  match v with
  | JObj _ => true
  | _ => false
  end.

(** What the reporter shows of one error block and of one item result. *)
Definition error_report (e : jsval) : logline :=
  LogError (field e "ErrorCode") (field e "ShortMessage")
           (js_or (field e "LongMessage") (JStr "")).

Definition item_report (qty : num) (s : jsval) : logline :=
  LogItem (field s "ItemID") qty
          (if truthy (field s "SKU") then Some (field s "SKU") else None).

(** The error list and the item-result list as the console shows them. *)
Fixpoint reported_errors (t : list event) : list logline :=
  match t with
  | [] => []
  | Console (LogError c m l) :: rest => LogError c m l :: reported_errors rest
  | _ :: rest => reported_errors rest
  end.

Fixpoint reported_items (t : list event) : list logline :=
  match t with
  | [] => []
  | Console (LogItem i q k) :: rest => LogItem i q k :: reported_items rest
  | _ :: rest => reported_items rest
  end.

(** The parser turns [xml] into a document whose root is the expected
    response element [resp], and [resp] has the error blocks [errs] and the
    per-item results [items] as its children of those names, each block
    being an element with children of its own. *)
Definition response_with (w : world) (xml resp : jsval)
    (errs items : list jsval) : Prop :=
  exists parsed,
    parseStringPromise w xml = Return parsed /\
    is_object parsed = true /\
    field parsed "ReviseInventoryStatusResponse" = resp /\
    is_object resp = true /\
    field resp "Errors" = explicitArray_false errs /\
    Forall (fun e => is_object e = true) errs /\
    field resp "InventoryStatus" = explicitArray_false items /\
    Forall (fun i => is_object i = true) items.

(** The parser turns [xml] into the document [parsed], whose root is not
    the expected response element. *)
Definition rootless (w : world) (xml parsed : jsval) : Prop :=
  parseStringPromise w xml = Return parsed /\
  is_object parsed = true /\
  field parsed "ReviseInventoryStatusResponse" = JUndefined.

(** What [callTradingAPI] writes when its request is rejected, lines
    103-108. *)
Definition trading_error_lines (response : option (Z * jsval))
    (message : string) : list event :=
  match response with
  | Some (status, data) =>
      [Console (LogTradingErrorHttp status); Console (LogTradingErrorData data)]
  | None => [Console (LogTradingError message)]
  end.

(** The first two lines of every cycle, lines 157-160. *)
Definition cycle_head (cfg : settings) : list event :=
  [Console LogPollStart;
   Console (LogInfoUpdating (ITEM_IDS cfg) (DESIRED_QTY cfg))].

(** The request of a cycle, lines 170-174. *)
Definition cycle_request (cfg : settings) (token : jsval) : list event :=
  [Console (LogDebugSending (length (ITEM_IDS cfg)));
   PostTrading
     (buildReviseInventoryStatusRequest (ITEM_IDS cfg) (DESIRED_QTY cfg))
     token].

(** A required configuration value is absent when the variable is unset or
    set to the empty string (a line [NAME=] of the [.env] file). *)
Definition absent (v : option string) : Prop := v = None \/ v = Some "".

Definition present (v : option string) : Prop :=
  exists s, v = Some s /\ s <> "".

(** The cycles started during a run. *)
Definition is_poll_start (e : event) : bool :=
  match e with
  | Console LogPollStart => true
  | _ => false
  end.

Definition cycles_started (t : list event) : nat :=
  length (filter is_poll_start t).

Definition is_exit (e : event) : bool :=
  match e with
  | Exit _ => true
  | _ => false
  end.

(** ** Sample worlds and states *)

Definition sample_clock (k : nat) : Z := 1700000000000 + 250 * Z.of_nat k.

Definition sample_world (token_answer trading_answer : http_outcome)
    (parsed : completion jsval) : world :=
  {| Date_now := sample_clock;
     identity_post := fun _ => token_answer;
     trading_post := fun _ => trading_answer;
     parseStringPromise := fun _ => parsed;
     ToNumber_object := fun _ => NaN |}.

Definition token_body (lifetime : jsval) : jsval :=
  JObj [("access_token", JStr "v^1.1#i^1#r^0"); ("expires_in", lifetime)].

Definition sample_error : jsval :=
  JObj [("ShortMessage", JStr "Quantity adjusted"); ("ErrorCode", JStr "21917091")].

Definition sample_item_1 : jsval :=
  JObj [("ItemID", JStr "111"); ("SKU", JStr "A-1")].

Definition sample_item_2 : jsval := JObj [("ItemID", JStr "222")].

(** One error block, held bare, and two item results, held in an array. *)
Definition sample_resp : jsval :=
  JObj [("Ack", JStr "Warning");
        ("Errors", sample_error);
        ("InventoryStatus", JArr [sample_item_1; sample_item_2])].

Definition sample_parsed : jsval :=
  JObj [("ReviseInventoryStatusResponse", sample_resp)].

Definition other_root : jsval :=
  JObj [("html", JObj [("body", JStr "Service Unavailable")])].

Definition calm_world : world :=
  sample_world (Respond (token_body (JNum (Fin 7200))))
               (Respond (JStr "<ReviseInventoryStatusResponse/>"))
               (Return sample_parsed).

Definition zero_lifetime_world : world :=
  sample_world (Respond (token_body (JNum (Fin 0))))
               (Respond (JStr "<ReviseInventoryStatusResponse/>"))
               (Return sample_parsed).

Definition tokenless_world : world :=
  sample_world (Respond (JObj [("expires_in", JNum (Fin 7200))]))
               (Respond (JStr "<ReviseInventoryStatusResponse/>"))
               (Return sample_parsed).

Definition offline_world : world :=
  sample_world (Reject None "getaddrinfo ENOTFOUND api.ebay.com")
               (Reject (Some (500, JStr "Internal Server Error")) "Request failed")
               (Return sample_parsed).

Definition unavailable_world : world :=
  sample_world (Respond (token_body (JNum (Fin 7200))))
               (Reject (Some (503, JStr "Service Unavailable"))
                       "Request failed with status code 503")
               (Return sample_parsed).

Definition rootless_world : world :=
  sample_world (Respond (token_body (JNum (Fin 7200))))
               (Respond (JStr "<html><body>Service Unavailable</body></html>"))
               (Return other_root).

Definition warm_state : state :=
  {| cachedToken := JStr "v^1.1#i^1#r^0";
     tokenExpiresAt := Fin (sample_clock 0 + 7200000);
     clock_reads := 0; identity_posts := 1; trading_posts := 1 |}.

(** A cache whose token expires 30 seconds after the first clock reading. *)
Definition expiring_state : state :=
  {| cachedToken := JStr "v^1.1#i^1#r^0";
     tokenExpiresAt := Fin (sample_clock 0 + 30000);
     clock_reads := 0; identity_posts := 1; trading_posts := 1 |}.

Definition sample_settings : settings :=
  {| IS_SANDBOX := false; ITEM_IDS := ["111"; "222"];
     DESIRED_QTY := Fin 3; POLL_MS := Fin 300000 |}.

Definition sample_environment : environment :=
  {| EBAY_CLIENT_ID := Some "app-id"; EBAY_CLIENT_SECRET := Some "secret";
     EBAY_REFRESH_TOKEN := Some "v^1.1#r^1"; TARGET_ITEM_IDS := Some "111, 222" |}.

Definition blank_environment : environment :=
  {| EBAY_CLIENT_ID := Some "app-id"; EBAY_CLIENT_SECRET := None;
     EBAY_REFRESH_TOKEN := Some "v^1.1#r^1"; TARGET_ITEM_IDS := Some "111, 222" |}.

(** ** The constants of lines 21-34 *)

(** The constants are computed from environment variables by string
    methods.  A string is read as the sequence of its characters, each a
    code unit below 256 (Latin-1 text); within that range the methods are
    modelled in full. *)

(** WhiteSpace and LineTerminator, the characters [trim] removes: TAB, LF,
    VT, FF, CR, SP and NBSP are those below 256. *)
Definition isWhiteSpace (c : ascii) : bool :=
  existsb (Ascii.eqb c) ["009"; "010"; "011"; "012"; "013"; " "; "160"]%char.

(** [s.trimStart()] *)
Fixpoint trimStart (s : string) : string :=
  match s with
  | EmptyString => EmptyString
  | String c rest => if isWhiteSpace c then trimStart rest else s
  end.

(** A string of white space only. *)
Fixpoint blank (s : string) : bool :=
  match s with
  | EmptyString => true
  | String c rest => isWhiteSpace c && blank rest
  end.

(** [s.trimEnd()] *)
Fixpoint trimEnd (s : string) : string :=
  match s with
  | EmptyString => EmptyString
  | String c rest => if blank s then EmptyString else String c (trimEnd rest)
  end.

(** [s.trim()] *)
Definition trim (s : string) : string := trimEnd (trimStart s).

(** [s.split(sep)] for a separator of one character: the pieces between the
    separators, empty pieces included; one empty piece for the empty
    string. *)
Fixpoint split (sep : ascii) (s : string) : list string :=
  match s with
  | EmptyString => [EmptyString]
  | String c rest =>
      if Ascii.eqb c sep then EmptyString :: split sep rest
      else match split sep rest with
           | piece :: pieces => String c piece :: pieces
           | [] => [String c EmptyString]
           end
  end.

(** line 32: [TARGET_ITEM_IDS.split(',').map(s => s.trim()).filter(Boolean)] *)
Definition ITEM_IDS_of (TARGET_ITEM_IDS : string) : list string :=
  filter (fun s => negb (s =? "")%string)
         (map trim (split "," TARGET_ITEM_IDS)).

(** [s.toLowerCase()]: A-Z, and the capital letters of Latin-1 (U+00C0 to
    U+00DE but the multiplication sign U+00D7), move up by 32. *)
Definition lower (c : ascii) : ascii :=
  let n := nat_of_ascii c in
  if ((65 <=? n) && (n <=? 90)
      || (192 <=? n) && (n <=? 222) && negb (n =? 215))%nat
  then ascii_of_nat (n + 32)
  else c.

Fixpoint toLowerCase (s : string) : string :=
  match s with
  | EmptyString => EmptyString
  | String c rest => String (lower c) (toLowerCase rest)
  end.

(** [v || fallback] on an environment variable. *)
Definition env_or (v : option string) (fallback : string) : string :=
  match v with
  | Some s => if (s =? "")%string then fallback else s
  | None => fallback
  end.

(** The optional variables of [process.env], lines 7-13. *)
Record options : Type := {
  EBAY_ENVIRONMENT : option string;
  TARGET_STOCK : option string;
  POLL_INTERVAL_MS : option string
}.

(** [Number(v || fallback)], lines 33-34: the fallback is a number, a
    variable that is set is a string, converted by the runtime. *)
Definition Number_or (w : world) (v : option string) (fallback : Z) : num :=
  to_number w (if env_truthy v then JStr (env_or v "") else JNum (Fin fallback)).

(** Lines 21-34.  Line 32 is reached only past the check of line 16, where
    [TARGET_ITEM_IDS] is a string. *)
Definition constants (env : environment) (opt : options) (w : world) : settings :=
  {| IS_SANDBOX :=
       (toLowerCase (env_or (EBAY_ENVIRONMENT opt) "production") =? "sandbox")%string;
     ITEM_IDS := ITEM_IDS_of (env_or (TARGET_ITEM_IDS env) "");
     DESIRED_QTY := Number_or w (TARGET_STOCK opt) 3;
     POLL_MS := Number_or w (POLL_INTERVAL_MS opt) 300000 |}.

(** lines 22-27 *)
Definition IDENTITY_BASE (cfg : settings) : string :=
  if IS_SANDBOX cfg
  then "https://api.sandbox.ebay.com/identity/v1/oauth2/token"
  else "https://api.ebay.com/identity/v1/oauth2/token".

Definition TRADING_ENDPOINT (cfg : settings) : string :=
  if IS_SANDBOX cfg
  then "https://api.sandbox.ebay.com/ws/api.dll"
  else "https://api.ebay.com/ws/api.dll".

(** The whole script: the check, the constants, the loop. *)
Definition script (env : environment) (opt : options) (ticks : nat)
    (w : world) : list event * state * status :=
  main env (constants env opt w) ticks w.

(** ** Vocabulary of the further properties *)

(** The characters of a string. *)
Definition chars (s : string) : list ascii := list_ascii_of_string s.

(** An identifier as line 32 delivers it: not empty, no white space at
    either end, no comma. *)
Definition clean (id : string) : Prop :=
  id <> EmptyString /\ trim id = id /\ ~ In ","%char (chars id).

(** A string made of commas and white space only. *)
Definition separators_only (s : string) : Prop :=
  Forall (fun c => c = ","%char \/ isWhiteSpace c = true) (chars s).

(** A string without the character that opens a tag. *)
Definition tagless (s : string) : Prop := ~ In "<"%char (chars s).

(** The token cache and the use made of the clock and of the token
    endpoint are the same in [s] and [s']. *)
Definition same_cache (s s' : state) : Prop :=
  cachedToken s' = cachedToken s /\
  tokenExpiresAt s' = tokenExpiresAt s /\
  clock_reads s' = clock_reads s /\
  identity_posts s' = identity_posts s.

(** A computation whose final state is always related to its first one. *)
Definition respects {A} (R : state -> state -> Prop) (m : M A) : Prop :=
  forall w s, R s (final (m w s)).

(** The Trading request a cycle sends with the token [token]. *)
Definition trading_request (cfg : settings) (token : jsval) : event :=
  PostTrading
    (buildReviseInventoryStatusRequest (ITEM_IDS cfg) (DESIRED_QTY cfg)) token.

(** A cycle from the call of the Trading API on, lines 173-178. *)
Definition call_and_report (cfg : settings) (token : jsval) : M unit :=
  try_catch
    (xmlResponse <- callTradingAPI
                      (buildReviseInventoryStatusRequest
                         (ITEM_IDS cfg) (DESIRED_QTY cfg)) token ;;
     parseAndLogResponse (DESIRED_QTY cfg) xmlResponse)
    (fun _ => console LogFatalCall).

(** The Trading request that follows a token acquisition, if any. *)
Definition request_after (cfg : settings) (acquired : completion jsval)
    : list event :=
  match acquired with
  | Return token => [trading_request cfg token]
  | Throw _ => []
  end.

Definition is_trading (e : event) : bool :=
  match e with
  | PostTrading _ _ => true
  | _ => false
  end.

(** A world whose parser rejects what it is given. *)
Definition garbled_world : world :=
  sample_world (Respond (token_body (JNum (Fin 7200))))
               (Respond (JStr "Bad Gateway"))
               (Throw (OtherError "Non-whitespace before first tag.")).

(** A world whose token endpoint grants 45 seconds. *)
Definition short_lived_world : world :=
  sample_world (Respond (token_body (JNum (Fin 45))))
               (Respond (JStr "<ReviseInventoryStatusResponse/>"))
               (Return sample_parsed).

(** A string whose first and last characters, when it has any, are not
    white space; said of the characters themselves. *)
Definition bare_ends (s : string) : Prop :=
  (forall c rest, s = String c rest -> isWhiteSpace c = false) /\
  (forall front c, s = (front ++ String c EmptyString)%string ->
                   isWhiteSpace c = false).

(** The spellings of the word sandbox in capital and small letters. *)
Definition sandbox_spelling (s : string) : Prop :=
  exists c1 c2 c3 c4 c5 c6 c7,
    s = String c1 (String c2 (String c3 (String c4 (String c5 (String c6
          (String c7 EmptyString)))))) /\
    (c1 = "s" \/ c1 = "S")%char /\ (c2 = "a" \/ c2 = "A")%char /\
    (c3 = "n" \/ c3 = "N")%char /\ (c4 = "d" \/ c4 = "D")%char /\
    (c5 = "b" \/ c5 = "B")%char /\ (c6 = "o" \/ c6 = "O")%char /\
    (c7 = "x" \/ c7 = "X")%char.

(** A world whose Trading endpoint answers 2xx with an empty body, in which
    the parser finds no document. *)
Definition empty_body_world : world :=
  sample_world (Respond (token_body (JNum (Fin 7200))))
               (Respond (JStr ""))
               (Return JNull).

(** * Properties *)

(** ** The token cache *)

Lemma reusable_reuse_test now s : reusable now s <-> reuse_test now s = true.
Proof.
  unfold reusable, reuse_test. rewrite andb_true_iff. split.
  - intros [Ht [e [He Hlt]]]. split; [exact Ht|].
    rewrite He. simpl. apply Z.ltb_lt. lia.
  - intros [Ht Hlt]. split; [exact Ht|].
    destruct (tokenExpiresAt s) as [e|]; simpl in Hlt; [|discriminate].
    exists e. split; [reflexivity|]. apply Z.ltb_lt in Hlt. lia.
Qed.

Lemma stale_reuse_test now s : stale now s <-> reuse_test now s = false.
Proof.
  unfold stale, reuse_test. rewrite andb_false_iff. split.
  - intros [Ht|He]; [left; exact Ht|right].
    destruct (tokenExpiresAt s) as [e|]; simpl; [|reflexivity].
    apply Z.ltb_ge. specialize (He e eq_refl). lia.
  - intros [Ht|Hlt]; [left; exact Ht|right].
    intros e He. rewrite He in Hlt. simpl in Hlt.
    apply Z.ltb_ge in Hlt. lia.
Qed.

Lemma reusable_or_stale now s : reusable now s \/ stale now s.
Proof.
  destruct (reuse_test now s) eqn:E.
  - left. apply reusable_reuse_test. exact E.
  - right. apply stale_reuse_test. exact E.
Qed.

Lemma reusable_not_stale now s : reusable now s -> ~ stale now s.
Proof.
  intros Hr Hs. apply reusable_reuse_test in Hr. apply stale_reuse_test in Hs.
  congruence.
Qed.

Ltac run :=
  unfold getAccessToken, bind, try_catch, member, throw, ret, read, console,
    emit, ToNumber, Date_now_call, axios_post_identity, set_cachedToken,
    set_tokenExpiresAt, settle;
  cbn -[truthy num_ltb num_sub num_add num_mul andb js_or field nullish to_number].

Lemma getAccessToken_reuse w s :
  reuse_test (Date_now w (clock_reads s)) s = true ->
  getAccessToken w s = ([], tick s, Return (cachedToken s)).
Proof.
  unfold reuse_test. intros H. run. rewrite H. reflexivity.
Qed.

Lemma getAccessToken_rejected w s response message :
  reuse_test (Date_now w (clock_reads s)) s = false ->
  identity_post w (identity_posts s) = Reject response message ->
  getAccessToken w s =
    ([Console LogAuthRefreshing; PostIdentity], posted s,
     Throw (AxiosError response message)).
Proof.
  unfold reuse_test. intros H Hp. run. rewrite H. cbn. rewrite Hp. reflexivity.
Qed.

Lemma getAccessToken_no_body w s data :
  reuse_test (Date_now w (clock_reads s)) s = false ->
  identity_post w (identity_posts s) = Respond data ->
  nullish data = true ->
  getAccessToken w s =
    ([Console LogAuthRefreshing; PostIdentity], posted s,
     Throw (TypeError "Cannot read properties")).
Proof.
  unfold reuse_test. intros H Hp Hn. run. rewrite H. cbn. rewrite Hp. cbn.
  rewrite Hn. reflexivity.
Qed.

Lemma getAccessToken_refreshed w s data :
  reuse_test (Date_now w (clock_reads s)) s = false ->
  identity_post w (identity_posts s) = Respond data ->
  nullish data = false ->
  let expiresIn := js_or (field data "expires_in") (JNum (Fin 3600)) in
  getAccessToken w s =
    ([Console LogAuthRefreshing; PostIdentity;
      Console (LogAuthRefreshed expiresIn)],
     {| cachedToken := field data "access_token";
        tokenExpiresAt :=
          num_add (Fin (Date_now w (S (clock_reads s))))
                  (num_mul (to_number w expiresIn) (Fin 1000));
        clock_reads := S (S (clock_reads s));
        identity_posts := S (identity_posts s);
        trading_posts := trading_posts s |},
     Return (field data "access_token")).
Proof.
  unfold reuse_test. intros H Hp Hn. run. rewrite H. cbn. rewrite Hp. cbn.
  rewrite Hn. reflexivity.
Qed.

(** C1.  A call made while a cached token exists and the clock is more than
    60 seconds before the recorded expiry returns the cached token itself,
    shows no event at all (so it sends no network request) and leaves the
    token, its expiry and the count of requests sent as they were. *)
Theorem getAccessToken_reuses_cached_token (w : world) (s : state) :
  reusable (Date_now w (clock_reads s)) s ->
  outcome (getAccessToken w s) = Return (cachedToken s) /\
  events (getAccessToken w s) = [] /\
  requests (events (getAccessToken w s)) = [] /\
  cachedToken (final (getAccessToken w s)) = cachedToken s /\
  tokenExpiresAt (final (getAccessToken w s)) = tokenExpiresAt s /\
  identity_posts (final (getAccessToken w s)) = identity_posts s.
Proof.
  intros H. apply reusable_reuse_test in H.
  rewrite (getAccessToken_reuse w s H). cbn. repeat split; reflexivity.
Qed.

Lemma getAccessToken_reuses_cached_token_witness :
  reusable (Date_now calm_world (clock_reads warm_state)) warm_state /\
  outcome (getAccessToken calm_world warm_state) = Return (JStr "v^1.1#i^1#r^0") /\
  requests (events (getAccessToken calm_world warm_state)) = [].
Proof.
  assert (H : reusable (Date_now calm_world (clock_reads warm_state)) warm_state).
  { split; [reflexivity|]. exists (sample_clock 0 + 7200000).
    split; [reflexivity|]. cbn. lia. }
  split; [exact H|].
  destruct (getAccessToken_reuses_cached_token calm_world warm_state H)
    as [Ho [_ [Hr _]]].
  split; [exact Ho | exact Hr].
Defined.

(** C2, as the specification has it, fails when the response carries a
    lifetime of 0: the cache is given 3600 seconds, not 0. *)
Lemma getAccessToken_zero_lifetime_counterexample :
  stale (Date_now zero_lifetime_world 0) initial_state /\
  identity_post zero_lifetime_world 0 = Respond (token_body (JNum (Fin 0))) /\
  carried_lifetime (token_body (JNum (Fin 0))) = Some 0 /\
  specified_expiry (Date_now zero_lifetime_world 1) (token_body (JNum (Fin 0)))
    = Fin 1700000000250 /\
  tokenExpiresAt (final (getAccessToken zero_lifetime_world initial_state))
    = Fin 1700003600250 /\
  tokenExpiresAt (final (getAccessToken zero_lifetime_world initial_state))
    <> specified_expiry (Date_now zero_lifetime_world 1)
                        (token_body (JNum (Fin 0))).
Proof.
  split; [left; reflexivity|].
  repeat split; try reflexivity.
  vm_compute. discriminate.
Qed.

(** C2, amended.  A call made when no token is cached, or when the cached
    token's expiry is within 60 seconds or past, sends exactly one refresh
    POST.  When that POST is answered with a body, the call stores and
    returns the body's access token and sets the expiry to the clock, read
    after the answer, plus the returned lifetime in seconds when that is a
    number other than 0, and plus 3600 seconds when the lifetime is missing
    or falsy (0 included). *)
Theorem getAccessToken_refreshes_once (w : world) (s : state) :
  stale (Date_now w (clock_reads s)) s ->
  refreshes (events (getAccessToken w s)) = 1%nat /\
  forall data,
    identity_post w (identity_posts s) = Respond data ->
    nullish data = false ->
    outcome (getAccessToken w s) = Return (field data "access_token") /\
    cachedToken (final (getAccessToken w s)) = field data "access_token" /\
    (forall n, field data "expires_in" = JNum (Fin n) -> n <> 0 ->
       tokenExpiresAt (final (getAccessToken w s))
         = Fin (Date_now w (S (clock_reads s)) + n * 1000)) /\
    (truthy (field data "expires_in") = false ->
       tokenExpiresAt (final (getAccessToken w s))
         = Fin (Date_now w (S (clock_reads s)) + 3600 * 1000)).
Proof.
  intros H. apply stale_reuse_test in H. split.
  - destruct (identity_post w (identity_posts s)) as [data|r m] eqn:Hp.
    + destruct (nullish data) eqn:Hn.
      * rewrite (getAccessToken_no_body w s data H Hp Hn). reflexivity.
      * rewrite (getAccessToken_refreshed w s data H Hp Hn). reflexivity.
    + rewrite (getAccessToken_rejected w s r m H Hp). reflexivity.
  - intros data Hp Hn.
    rewrite (getAccessToken_refreshed w s data H Hp Hn). cbn.
    repeat split.
    + intros n Hn' Hz. rewrite Hn'. unfold js_or. cbn.
      destruct (Z.eqb_spec n 0) as [E|E]; [contradiction|]. reflexivity.
    + intros Hf. unfold js_or. rewrite Hf. reflexivity.
Qed.

Lemma getAccessToken_refreshes_once_witness :
  stale (Date_now calm_world (clock_reads expiring_state)) expiring_state /\
  refreshes (events (getAccessToken calm_world expiring_state)) = 1%nat /\
  cachedToken (final (getAccessToken calm_world expiring_state))
    = JStr "v^1.1#i^1#r^0" /\
  tokenExpiresAt (final (getAccessToken calm_world expiring_state))
    = Fin (sample_clock 1 + 7200 * 1000).
Proof.
  assert (H : stale (Date_now calm_world (clock_reads expiring_state))
                    expiring_state).
  { right. intros e He. injection He as <-. cbn. lia. }
  split; [exact H|].
  destruct (getAccessToken_refreshes_once calm_world expiring_state H)
    as [Hone Hdata].
  split; [exact Hone|].
  destruct (Hdata (token_body (JNum (Fin 7200))) eq_refl eq_refl)
    as [_ [Htok [Hexp _]]].
  split; [exact Htok|].
  apply (Hexp 7200 eq_refl). lia.
Defined.

(** C3, as the specification has it, fails on a response that contains no
    access token: the call does not fail, it returns [undefined]. *)
Lemma getAccessToken_tokenless_counterexample :
  identity_post tokenless_world 0
    = Respond (JObj [("expires_in", JNum (Fin 7200))]) /\
  lookup "access_token" [("expires_in", JNum (Fin 7200))] = None /\
  outcome (getAccessToken tokenless_world initial_state) = Return JUndefined /\
  cachedToken (final (getAccessToken tokenless_world initial_state))
    = JUndefined.
Proof. repeat split; reflexivity. Qed.

(** C3, amended.  [getAccessToken] fails exactly when it has to refresh and
    either the refresh POST errors or its answer has no body ([null] or
    [undefined], whose properties cannot be read).  An answer whose body
    contains no access token does not make it fail: the call returns, and
    caches, [undefined]. *)
Theorem getAccessToken_fails_iff (w : world) (s : state) :
  ((exists e, outcome (getAccessToken w s) = Throw e) <->
   stale (Date_now w (clock_reads s)) s /\
   ((exists response message,
       identity_post w (identity_posts s) = Reject response message) \/
    (exists data,
       identity_post w (identity_posts s) = Respond data /\
       nullish data = true))) /\
  (forall data,
     stale (Date_now w (clock_reads s)) s ->
     identity_post w (identity_posts s) = Respond data ->
     nullish data = false ->
     field data "access_token" = JUndefined ->
     outcome (getAccessToken w s) = Return JUndefined /\
     cachedToken (final (getAccessToken w s)) = JUndefined).
Proof.
  split.
  - destruct (reuse_test (Date_now w (clock_reads s)) s) eqn:Ht.
    + rewrite (getAccessToken_reuse w s Ht). cbn. split.
      * intros [e He]. discriminate.
      * intros [Hs _]. apply stale_reuse_test in Hs. congruence.
    + assert (Hs := proj2 (stale_reuse_test _ _) Ht).
      destruct (identity_post w (identity_posts s)) as [data|r m] eqn:Hp.
      * destruct (nullish data) eqn:Hn.
        -- rewrite (getAccessToken_no_body w s data Ht Hp Hn). cbn. split.
           ++ intros _. split; [exact Hs|]. right. exists data. auto.
           ++ intros _. eexists. reflexivity.
        -- rewrite (getAccessToken_refreshed w s data Ht Hp Hn). cbn. split.
           ++ intros [e He]. discriminate.
           ++ intros [_ [[r [m Hr]]|[d [Hd Hn']]]]; [discriminate|].
              injection Hd as <-. congruence.
      * rewrite (getAccessToken_rejected w s r m Ht Hp). cbn. split.
        -- intros _. split; [exact Hs|]. left. exists r, m. reflexivity.
        -- intros _. eexists. reflexivity.
  - intros data Hs Hp Hn Hf. apply stale_reuse_test in Hs.
    rewrite (getAccessToken_refreshed w s data Hs Hp Hn). cbn.
    rewrite Hf. split; reflexivity.
Qed.

Lemma getAccessToken_fails_iff_witness :
  stale (Date_now offline_world (clock_reads initial_state)) initial_state /\
  identity_post offline_world 0
    = Reject None "getaddrinfo ENOTFOUND api.ebay.com" /\
  (exists e, outcome (getAccessToken offline_world initial_state) = Throw e) /\
  outcome (getAccessToken tokenless_world initial_state) = Return JUndefined.
Proof.
  assert (Hs : forall w, stale (Date_now w (clock_reads initial_state))
                               initial_state).
  { intros w. left. reflexivity. }
  split; [apply Hs|]. split; [reflexivity|]. split.
  - apply (proj1 (getAccessToken_fails_iff offline_world initial_state)).
    split; [apply Hs|]. left. eexists. eexists. reflexivity.
  - apply (proj2 (getAccessToken_fails_iff tokenless_world initial_state)
                 (JObj [("expires_in", JNum (Fin 7200))]));
      [apply Hs | reflexivity | reflexivity | reflexivity].
Defined.

(** C10.  When the refresh POST inside [getAccessToken] fails, the call
    throws that failure and the cached token and its recorded expiry are
    what they were before the call. *)
Theorem getAccessToken_failed_refresh_keeps_cache
    (w : world) (s : state) (response : option (Z * jsval)) (message : string) :
  stale (Date_now w (clock_reads s)) s ->
  identity_post w (identity_posts s) = Reject response message ->
  outcome (getAccessToken w s) = Throw (AxiosError response message) /\
  refreshes (events (getAccessToken w s)) = 1%nat /\
  cachedToken (final (getAccessToken w s)) = cachedToken s /\
  tokenExpiresAt (final (getAccessToken w s)) = tokenExpiresAt s.
Proof.
  intros Hs Hp. apply stale_reuse_test in Hs.
  rewrite (getAccessToken_rejected w s response message Hs Hp).
  repeat split; reflexivity.
Qed.

Lemma getAccessToken_failed_refresh_keeps_cache_witness :
  stale (Date_now offline_world (clock_reads expiring_state)) expiring_state /\
  cachedToken (final (getAccessToken offline_world expiring_state))
    = JStr "v^1.1#i^1#r^0" /\
  tokenExpiresAt (final (getAccessToken offline_world expiring_state))
    = Fin (sample_clock 0 + 30000).
Proof.
  assert (H : stale (Date_now offline_world (clock_reads expiring_state))
                    expiring_state).
  { right. intros e He. injection He as <-. cbn. lia. }
  split; [exact H|].
  destruct (getAccessToken_failed_refresh_keeps_cache offline_world
              expiring_state None "getaddrinfo ENOTFOUND api.ebay.com"
              H eq_refl) as [_ [_ [Hc He]]].
  split; [exact Hc | exact He].
Defined.

(** ** The request builder *)

(** C4.  [buildReviseInventoryStatusRequest] is a function of its two
    arguments alone (a request is the fixed opening text, one block per
    identifier in the order given, and the fixed closing text; a block holds
    the identifier as it is, whatever its characters, and the quantity).
    For the identifiers 111 and 222 and the quantity 3 the request has
    exactly two item blocks, the first with 111 and the second with 222,
    each with quantity 3. *)
Theorem buildRequest_two_items :
  (forall itemIds quantity,
     buildReviseInventoryStatusRequest itemIds quantity =
       xml_open
       ++ String.concat "" (map (inventoryStatusBlock quantity) itemIds)
       ++ xml_close) /\
  (forall id,
     inventoryStatusBlock (Fin 3) id =
       nl ++ "    <InventoryStatus>" ++
       nl ++ "      <ItemID>" ++ id ++ "</ItemID>" ++
       nl ++ "      <Quantity>3</Quantity>" ++
       nl ++ "    </InventoryStatus>") /\
  occurrences "<InventoryStatus>" xml_open = 0%nat /\
  occurrences "<InventoryStatus>" xml_close = 0%nat /\
  let xml := buildReviseInventoryStatusRequest ["111"; "222"] (Fin 3) in
  xml = xml_open ++ inventoryStatusBlock (Fin 3) "111"
                 ++ inventoryStatusBlock (Fin 3) "222" ++ xml_close /\
  occurrences "<InventoryStatus>" xml = 2%nat /\
  occurrences "</InventoryStatus>" xml = 2%nat /\
  occurrences "<ItemID>" xml = 2%nat /\
  occurrences "<Quantity>" xml = 2%nat /\
  occurrences "<ItemID>111</ItemID>" xml = 1%nat /\
  occurrences "<ItemID>222</ItemID>" xml = 1%nat /\
  occurrences "<Quantity>3</Quantity>" xml = 2%nat /\
  String.index 0 "<ItemID>111</ItemID>" xml = Some 141%nat /\
  String.index 0 "<ItemID>222</ItemID>" xml = Some 242%nat.
Proof.
  split; [intros itemIds quantity; reflexivity|].
  split; [intros id; reflexivity|].
  repeat split; vm_compute; reflexivity.
Qed.

(** ** The response reporter *)

Local Open Scope list_scope.

Section Reporter.
Variable w : world.
Variable qty : num.

Lemma object_not_nullish v : is_object v = true -> nullish v = false.
Proof. destruct v; simpl; congruence. Qed.

Lemma log_error_object s e :
  is_object e = true ->
  log_error e w s = ([Console (error_report e)], s, Return tt).
Proof.
  intros H. apply object_not_nullish in H.
  unfold log_error, bind, member. rewrite H. reflexivity.
Qed.

Lemma log_item_object s i :
  is_object i = true ->
  log_item qty i w s = ([Console (item_report qty i)], s, Return tt).
Proof.
  intros H. apply object_not_nullish in H.
  unfold log_item, bind, member. rewrite H. reflexivity.
Qed.

Lemma for_of_objects (body : jsval -> M unit) (line : jsval -> logline) l :
  (forall s x, is_object x = true ->
               body x w s = ([Console (line x)], s, Return tt)) ->
  Forall (fun x => is_object x = true) l ->
  forall s, for_of l body w s = (map (fun x => Console (line x)) l, s, Return tt).
Proof.
  intros Hbody Hl. induction Hl as [|x l Hx Hl IH]; intros s.
  - reflexivity.
  - cbn [for_of map]. unfold bind. rewrite (Hbody s x Hx), IH. reflexivity.
Qed.

(** The two guarded loops of lines 129-139 and 141-152 walk the blocks
    themselves, whether the parser held them bare or in an array. *)
Lemma normalized_loop (body : jsval -> M unit) l :
  Forall (fun x => is_object x = true) l ->
  (if truthy (explicitArray_false l)
   then for_of (as_array (explicitArray_false l)) body
   else ret tt) = for_of l body.
Proof.
  intros Hl. destruct l as [|x [|y l]].
  - reflexivity.
  - inversion Hl as [|? ? Hx _]; subst.
    destruct x; simpl in Hx; try discriminate. reflexivity.
  - reflexivity.
Qed.

Lemma as_array_blocks l :
  Forall (fun x => is_object x = true) l -> l <> [] ->
  as_array (explicitArray_false l) = l.
Proof.
  intros Hl Hne. destruct l as [|x [|y l]].
  - contradiction.
  - inversion Hl as [|? ? Hx _]; subst.
    destruct x; simpl in Hx; try discriminate. reflexivity.
  - reflexivity.
Qed.

Lemma parseAndLogResponse_report s xml resp errs items :
  response_with w xml resp errs items ->
  parseAndLogResponse qty xml w s =
    (Console (LogAck (field resp "Ack"))
       :: map (fun e => Console (error_report e)) errs
       ++ map (fun i => Console (item_report qty i)) items,
     s, Return tt).
Proof.
  intros [parsed [Hp [Ho [Hr [Hro [He [Hes [Hi His]]]]]]]].
  assert (Hn := object_not_nullish _ Ho).
  assert (Hrn := object_not_nullish _ Hro).
  assert (Hrt : truthy resp = true) by (destruct resp; simpl in *; congruence).
  unfold parseAndLogResponse.
  unfold bind at 1. unfold xml2js_parse. rewrite Hp.
  unfold bind at 1. unfold member at 1. rewrite Hn, Hr.
  unfold ret at 1. rewrite Hrt. cbn [negb].
  unfold bind at 1. unfold member at 1. rewrite Hrn. unfold ret at 1.
  unfold bind at 1. unfold console at 1, emit at 1.
  unfold bind at 1. unfold member at 1. rewrite Hrn, He. unfold ret at 1.
  rewrite (normalized_loop log_error errs Hes).
  unfold bind at 1.
  rewrite (for_of_objects log_error error_report errs log_error_object Hes).
  unfold bind at 1. unfold member at 1. rewrite Hrn, Hi. unfold ret at 1.
  rewrite (normalized_loop (log_item qty) items His).
  rewrite (for_of_objects (log_item qty) (item_report qty) items
             log_item_object His).
  reflexivity.
Qed.

Lemma reported_items_errors l :
  reported_items (map (fun e => Console (error_report e)) l) = [].
Proof. induction l; [reflexivity | exact IHl]. Qed.

Lemma reported_items_items l :
  reported_items (map (fun i => Console (item_report qty i)) l)
    = map (item_report qty) l.
Proof. induction l; [reflexivity | cbn; rewrite IHl; reflexivity]. Qed.

Lemma reported_errors_errors l :
  reported_errors (map (fun e => Console (error_report e)) l)
    = map error_report l.
Proof. induction l; [reflexivity | cbn; rewrite IHl; reflexivity]. Qed.

Lemma reported_errors_items l :
  reported_errors (map (fun i => Console (item_report qty i)) l) = [].
Proof. induction l; [reflexivity | exact IHl]. Qed.

Lemma reported_items_app t1 t2 :
  reported_items (t1 ++ t2) = reported_items t1 ++ reported_items t2.
Proof.
  induction t1 as [|e t1 IH]; [reflexivity|].
  destruct e as [l| | |]; try exact IH.
  destruct l; try exact IH. cbn. rewrite IH. reflexivity.
Qed.

Lemma reported_errors_app t1 t2 :
  reported_errors (t1 ++ t2) = reported_errors t1 ++ reported_errors t2.
Proof.
  induction t1 as [|e t1 IH]; [reflexivity|].
  destruct e as [l| | |]; try exact IH.
  destruct l; try exact IH. cbn. rewrite IH. reflexivity.
Qed.

(** C5.  For a response with the item results [items] and the error
    blocks [errs], the reporter does not fail and reports exactly one item
    line per item result, in order, and one error line per error block:
    the lists it walks have the length of [items] and of [errs], also
    when that length is 1 and the parser held the block bare. *)
Theorem parseAndLogResponse_normalizes s xml resp errs items :
  response_with w xml resp errs items ->
  outcome (parseAndLogResponse qty xml w s) = Return tt /\
  (items <> [] -> as_array (field resp "InventoryStatus") = items) /\
  (errs <> [] -> as_array (field resp "Errors") = errs) /\
  reported_items (events (parseAndLogResponse qty xml w s))
    = map (item_report qty) items /\
  length (reported_items (events (parseAndLogResponse qty xml w s)))
    = length items /\
  reported_errors (events (parseAndLogResponse qty xml w s))
    = map error_report errs /\
  length (reported_errors (events (parseAndLogResponse qty xml w s)))
    = length errs.
Proof.
  intros H. rewrite (parseAndLogResponse_report s xml resp errs items H).
  destruct H as [parsed [_ [_ [_ [_ [He [Hes [Hi His]]]]]]]].
  unfold events, outcome. cbn [fst snd].
  assert (Hitems :
    reported_items
      (Console (LogAck (field resp "Ack"))
         :: map (fun e => Console (error_report e)) errs
         ++ map (fun i => Console (item_report qty i)) items)
    = map (item_report qty) items).
  { cbn [reported_items]. rewrite reported_items_app, reported_items_errors,
      reported_items_items. reflexivity. }
  assert (Herrs :
    reported_errors
      (Console (LogAck (field resp "Ack"))
         :: map (fun e => Console (error_report e)) errs
         ++ map (fun i => Console (item_report qty i)) items)
    = map error_report errs).
  { cbn [reported_errors]. rewrite reported_errors_app, reported_errors_errors,
      reported_errors_items. apply app_nil_r. }
  rewrite Hitems, Herrs, !length_map, Hi, He.
  repeat split; auto using as_array_blocks.
Qed.

(** C6.  For a response with the error blocks [errs], the reporter does
    not fail and shows, for each block, a line with its code and its short
    message; the error lines are those of the blocks, in order, and there
    is none when the response has no error block. *)
Theorem parseAndLogResponse_surfaces_errors s xml resp errs items :
  response_with w xml resp errs items ->
  outcome (parseAndLogResponse qty xml w s) = Return tt /\
  (forall e, In e errs ->
     In (Console (LogError (field e "ErrorCode") (field e "ShortMessage")
                           (js_or (field e "LongMessage") (JStr ""))))
        (events (parseAndLogResponse qty xml w s))) /\
  reported_errors (events (parseAndLogResponse qty xml w s))
    = map error_report errs /\
  (errs = [] ->
     reported_errors (events (parseAndLogResponse qty xml w s)) = []).
Proof.
  intros H. rewrite (parseAndLogResponse_report s xml resp errs items H).
  unfold events, outcome. cbn [fst snd].
  assert (Herrs :
    reported_errors
      (Console (LogAck (field resp "Ack"))
         :: map (fun e => Console (error_report e)) errs
         ++ map (fun i => Console (item_report qty i)) items)
    = map error_report errs).
  { cbn [reported_errors]. rewrite reported_errors_app, reported_errors_errors,
      reported_errors_items. apply app_nil_r. }
  split; [reflexivity|]. split; [|split].
  - intros e He. right. apply in_or_app. left.
    apply (in_map (fun e => Console (error_report e)) errs e He).
  - exact Herrs.
  - intros ->. rewrite Herrs. reflexivity.
Qed.

End Reporter.

Lemma sample_response_with xml :
  response_with calm_world xml sample_resp
                [sample_error] [sample_item_1; sample_item_2].
Proof.
  exists sample_parsed.
  repeat split; try reflexivity; repeat constructor.
Defined.

Lemma parseAndLogResponse_normalizes_witness :
  response_with calm_world (JStr "<ReviseInventoryStatusResponse/>") sample_resp
                [sample_error] [sample_item_1; sample_item_2] /\
  length (reported_items
            (events (parseAndLogResponse (Fin 3)
                       (JStr "<ReviseInventoryStatusResponse/>")
                       calm_world warm_state))) = 2%nat /\
  length (reported_errors
            (events (parseAndLogResponse (Fin 3)
                       (JStr "<ReviseInventoryStatusResponse/>")
                       calm_world warm_state))) = 1%nat.
Proof.
  split; [apply sample_response_with|].
  destruct (parseAndLogResponse_normalizes calm_world (Fin 3) warm_state
              (JStr "<ReviseInventoryStatusResponse/>") sample_resp
              [sample_error] [sample_item_1; sample_item_2]
              (sample_response_with _))
    as [_ [_ [_ [_ [Hi [_ He]]]]]].
  split; [exact Hi | exact He].
Defined.

Lemma parseAndLogResponse_surfaces_errors_witness :
  response_with calm_world (JStr "<ReviseInventoryStatusResponse/>") sample_resp
                [sample_error] [sample_item_1; sample_item_2] /\
  In (Console (LogError (JStr "21917091") (JStr "Quantity adjusted") (JStr "")))
     (events (parseAndLogResponse (Fin 3)
                (JStr "<ReviseInventoryStatusResponse/>")
                calm_world warm_state)).
Proof.
  split; [apply sample_response_with|].
  destruct (parseAndLogResponse_surfaces_errors calm_world (Fin 3) warm_state
              (JStr "<ReviseInventoryStatusResponse/>") sample_resp
              [sample_error] [sample_item_1; sample_item_2]
              (sample_response_with _))
    as [_ [Hin _]].
  apply (Hin sample_error). left. reflexivity.
Defined.

(** ** The poll loop *)

Section Composition.
Context {A B : Type}.
Variable p : event -> bool.

Lemma returns_bind (m : M A) (k : A -> M B) :
  returns m -> (forall a, returns (k a)) -> returns (bind m k).
Proof.
  intros Hm Hk w s. unfold bind.
  destruct (Hm w s) as [a Ha]. unfold outcome in Ha.
  destruct (m w s) as [[t1 s1] r1]. cbn in Ha. subst r1.
  destruct (Hk a w s1) as [b Hb]. unfold outcome in Hb.
  destruct (k a w s1) as [[t2 s2] r2]. cbn in Hb. subst r2.
  exists b. reflexivity.
Qed.

Lemma returns_try_catch (m : M A) (h : exn -> M A) :
  (forall e, returns (h e)) -> returns (try_catch m h).
Proof.
  intros Hh w s. unfold try_catch.
  destruct (m w s) as [[t1 s1] [a|e]].
  - exists a. reflexivity.
  - destruct (Hh e w s1) as [b Hb]. unfold outcome in Hb.
    destruct (h e w s1) as [[t2 s2] r2]. cbn in Hb. subst r2.
    exists b. reflexivity.
Qed.

Lemma silent_bind (m : M A) (k : A -> M B) :
  silent p m -> (forall a, silent p (k a)) -> silent p (bind m k).
Proof.
  intros Hm Hk w s. unfold bind.
  specialize (Hm w s). unfold events in *.
  destruct (m w s) as [[t1 s1] [a|e]]; cbn in *.
  - specialize (Hk a w s1). unfold events in Hk.
    destruct (k a w s1) as [[t2 s2] r2]. cbn in *.
    rewrite filter_app, Hm, Hk. reflexivity.
  - exact Hm.
Qed.

Lemma silent_try_catch (m : M A) (h : exn -> M A) :
  silent p m -> (forall e, silent p (h e)) -> silent p (try_catch m h).
Proof.
  intros Hm Hh w s. unfold try_catch.
  specialize (Hm w s). unfold events in *.
  destruct (m w s) as [[t1 s1] [a|e]]; cbn in *.
  - exact Hm.
  - specialize (Hh e w s1). unfold events in Hh.
    destruct (h e w s1) as [[t2 s2] r2]. cbn in *.
    rewrite filter_app, Hm, Hh. reflexivity.
Qed.

Lemma silent_ret (a : A) : silent p (ret a).
Proof. intros w s. reflexivity. Qed.

Lemma silent_throw (e : exn) : silent p (@throw A e).
Proof. intros w s. reflexivity. Qed.

Lemma silent_read (f : state -> A) : silent p (read f).
Proof. intros w s. reflexivity. Qed.

End Composition.

Lemma returns_ret {A} (a : A) : returns (ret a).
Proof. intros w s. exists a. reflexivity. Qed.

Lemma returns_console l : returns (console l).
Proof. intros w s. exists tt. reflexivity. Qed.

Lemma silent_console p l : p (Console l) = false -> silent p (console l).
Proof. intros H w s. cbn. rewrite H. reflexivity. Qed.

Lemma silent_member p v name : silent p (member v name).
Proof. intros w s. unfold member. destruct (nullish v); reflexivity. Qed.

(** Inside a cycle, after its first line, nothing marks the start of a cycle
    and nothing ends the process: the events are console lines other than
    the start line, and the two kinds of network request. *)
Section Inner.
Variable p : event -> bool.
Hypothesis p_console : forall l, l <> LogPollStart -> p (Console l) = false.
Hypothesis p_identity : p PostIdentity = false.
Hypothesis p_trading : forall body token, p (PostTrading body token) = false.

Ltac line := apply silent_console; apply p_console; discriminate.

Lemma silent_getAccessToken : silent p getAccessToken.
Proof.
  unfold getAccessToken.
  apply silent_bind; [intros w s; reflexivity | intros now].
  apply silent_bind; [apply silent_read | intros token].
  apply silent_bind; [apply silent_read | intros expiry].
  destruct (truthy token && num_ltb (Fin now) (num_sub expiry (Fin 60000))).
  - apply silent_ret.
  - apply silent_bind; [line | intros _].
    apply silent_bind;
      [intros w s; cbn; rewrite p_identity; reflexivity | intros data].
    apply silent_bind; [apply silent_member | intros access_token].
    apply silent_bind; [intros w s; reflexivity | intros _].
    apply silent_bind; [apply silent_member | intros expires_in].
    apply silent_bind; [intros w s; reflexivity | intros now'].
    apply silent_bind; [intros w s; reflexivity | intros seconds].
    apply silent_bind; [intros w s; reflexivity | intros _].
    apply silent_bind; [line | intros _].
    apply silent_read.
Qed.

Lemma silent_callTradingAPI xmlBody token : silent p (callTradingAPI xmlBody token).
Proof.
  unfold callTradingAPI. apply silent_try_catch.
  - intros w s. cbn. rewrite p_trading. reflexivity.
  - intros err. apply silent_bind; [|intros _; apply silent_throw].
    destruct err as [[[status data]|] message|message|message]; try line.
    apply silent_bind; [line | intros _; line].
Qed.

Lemma silent_for_of {A} (body : A -> M unit) l :
  (forall x, silent p (body x)) -> silent p (for_of l body).
Proof.
  intros Hbody. induction l as [|x l IH].
  - apply silent_ret.
  - cbn [for_of]. apply silent_bind; [apply Hbody | intros _; exact IH].
Qed.

Lemma silent_parseAndLogResponse qty xml : silent p (parseAndLogResponse qty xml).
Proof.
  unfold parseAndLogResponse.
  apply silent_bind; [intros w s; reflexivity | intros parsed].
  apply silent_bind; [apply silent_member | intros resp].
  destruct (negb (truthy resp)); [line|].
  apply silent_bind; [apply silent_member | intros ack].
  apply silent_bind; [line | intros _].
  apply silent_bind; [apply silent_member | intros Errors].
  apply silent_bind.
  { destruct (truthy Errors); [|apply silent_ret].
    apply silent_for_of. intros e. unfold log_error.
    apply silent_bind; [apply silent_member | intros code].
    apply silent_bind; [apply silent_member | intros short].
    apply silent_bind; [apply silent_member | intros long]. line. }
  intros _.
  apply silent_bind; [apply silent_member | intros InventoryStatus].
  destruct (truthy InventoryStatus); [|apply silent_ret].
  apply silent_for_of. intros i. unfold log_item.
  apply silent_bind; [apply silent_member | intros itemID].
  apply silent_bind; [apply silent_member | intros sku]. line.
Qed.

(** A cycle is its start line followed by events of the inner kind. *)
Lemma processItems_shape cfg w s :
  exists t, events (processItems cfg w s) = Console LogPollStart :: t /\
            filter p t = [].
Proof.
  unfold processItems. unfold bind at 1. unfold console at 1, emit at 1.
  cbv beta iota.
  match goal with
  | |- context [match ?m w s with _ => _ end] =>
      assert (Hk : silent p m); [| specialize (Hk w s);
        destruct (m w s) as [[t2 s2] r2] ]
  end.
  - apply silent_bind; [line | intros _].
    apply silent_bind.
    { apply silent_try_catch.
      - apply silent_bind; [apply silent_getAccessToken
                           | intros token; apply silent_ret].
      - intros e. apply silent_bind; [line | intros _; apply silent_ret]. }
    intros [token|]; [|apply silent_ret].
    apply silent_bind; [line | intros _].
    apply silent_bind; [|intros _; line].
    apply silent_try_catch.
    + apply silent_bind; [apply silent_callTradingAPI | intros xmlResponse].
      apply silent_parseAndLogResponse.
    + intros e. line.
  - exists t2. split; [reflexivity | exact Hk].
Qed.

End Inner.

Ltac step :=
  unfold processItems, callTradingAPI, bind, try_catch, console, emit, ret,
    throw, axios_post_trading, settle, cycle_head, cycle_request,
    trading_error_lines;
  cbn -[getAccessToken parseAndLogResponse buildReviseInventoryStatusRequest].

Lemma processItems_token_failure cfg w s t1 s1 e :
  getAccessToken w s = (t1, s1, Throw e) ->
  processItems cfg w s =
    (cycle_head cfg ++ t1 ++ [Console LogFatalToken], s1, Return tt).
Proof.
  intros H. step. rewrite H. cbn. rewrite app_nil_r. reflexivity.
Qed.


Lemma processItems_parsed cfg w s t1 s1 token xml t2 :
  getAccessToken w s = (t1, s1, Return token) ->
  trading_post w (trading_posts s1) = Respond xml ->
  parseAndLogResponse (DESIRED_QTY cfg) xml w (called s1)
    = (t2, called s1, Return tt) ->
  processItems cfg w s =
    (cycle_head cfg ++ t1 ++ cycle_request cfg token ++ t2
       ++ [Console LogPollEnd],
     called s1, Return tt).
Proof.
  intros H Hp Hparse. step. rewrite H. step. rewrite Hp. step.
  unfold called in Hparse. rewrite Hparse. cbn.
  rewrite app_nil_r. reflexivity.
Qed.

Lemma parseAndLogResponse_rootless w qty s xml parsed :
  rootless w xml parsed ->
  parseAndLogResponse qty xml w s
    = ([Console (LogParseUnexpected parsed)], s, Return tt).
Proof.
  intros [Hp [Ho Hr]]. apply object_not_nullish in Ho.
  unfold parseAndLogResponse, bind, xml2js_parse, member. rewrite Hp, Ho, Hr.
  reflexivity.
Qed.

Lemma returns_processItems cfg : returns (processItems cfg).
Proof.
  unfold processItems.
  apply returns_bind; [apply returns_console | intros _].
  apply returns_bind; [apply returns_console | intros _].
  apply returns_bind.
  { apply returns_try_catch. intros e.
    apply returns_bind; [apply returns_console | intros _; apply returns_ret]. }
  intros [token|]; [|apply returns_ret].
  apply returns_bind; [apply returns_console | intros _].
  apply returns_bind; [|intros _; apply returns_console].
  apply returns_try_catch. intros e. apply returns_console.
Qed.

Lemma processItems_returns_tt cfg w s :
  outcome (processItems cfg w s) = Return tt.
Proof.
  destruct (returns_processItems cfg w s) as [[] H]. exact H.
Qed.

Lemma is_poll_start_console l : l <> LogPollStart -> is_poll_start (Console l) = false.
Proof. destruct l; try reflexivity. congruence. Qed.

Lemma processItems_starts_one cfg w s :
  cycles_started (events (processItems cfg w s)) = 1%nat.
Proof.
  destruct (processItems_shape is_poll_start is_poll_start_console eq_refl
              (fun _ _ => eq_refl) cfg w s) as [t [Ht Hq]].
  unfold cycles_started. rewrite Ht. cbn. rewrite Hq. reflexivity.
Qed.

Lemma processItems_never_exits cfg w s :
  filter is_exit (events (processItems cfg w s)) = [].
Proof.
  destruct (processItems_shape is_exit (fun _ _ => eq_refl) eq_refl
              (fun _ _ => eq_refl) cfg w s) as [t [Ht Hq]].
  rewrite Ht. cbn. exact Hq.
Qed.

(** Every firing of the timer runs one cycle to its end, whatever happened
    in the cycles before. *)
Lemma interval_runs ticks cfg w s :
  outcome (interval ticks cfg w s) = Return tt /\
  cycles_started (events (interval ticks cfg w s)) = ticks /\
  filter is_exit (events (interval ticks cfg w s)) = [].
Proof.
  revert s. induction ticks as [|n IH]; intros s.
  - repeat split.
  - cbn [interval]. unfold bind, try_catch.
    pose proof (processItems_returns_tt cfg w s) as Hr.
    pose proof (processItems_starts_one cfg w s) as Hc.
    pose proof (processItems_never_exits cfg w s) as Hx.
    destruct (processItems cfg w s) as [[t1 s1] r1].
    unfold outcome, events in Hr, Hc, Hx. cbn in Hr, Hc, Hx. subst r1.
    destruct (IH s1) as [Ho [Hn He]].
    destruct (interval n cfg w s1) as [[t2 s2] r2].
    unfold outcome, events, cycles_started in *. cbn in *.
    rewrite !filter_app, length_app, Hc, Hn, Hx, He. auto.
Qed.

Lemma missing_env_absent env :
  missing_env env = true <->
  absent (EBAY_CLIENT_ID env) \/ absent (EBAY_CLIENT_SECRET env) \/
  absent (EBAY_REFRESH_TOKEN env) \/ absent (TARGET_ITEM_IDS env).
Proof.
  assert (H : forall v, negb (env_truthy v) = true <-> absent v).
  { intros [v|]; unfold absent; cbn.
    - rewrite negb_involutive. destruct (String.eqb_spec v "").
      + subst. split; auto.
      + split; [discriminate|]. intros [?|?]; congruence.
    - split; auto. }
  unfold missing_env. rewrite !orb_true_iff, !H. tauto.
Qed.

Lemma missing_env_present env :
  missing_env env = false <->
  present (EBAY_CLIENT_ID env) /\ present (EBAY_CLIENT_SECRET env) /\
  present (EBAY_REFRESH_TOKEN env) /\ present (TARGET_ITEM_IDS env).
Proof.
  assert (H : forall v, negb (env_truthy v) = false <-> present v).
  { intros [v|]; unfold present; cbn.
    - rewrite negb_involutive. destruct (String.eqb_spec v "").
      + subst. split; [discriminate|]. intros [s [Hs Hne]]. congruence.
      + split; [|reflexivity]. intros _. exists v. auto.
    - split; [discriminate|]. intros [s [Hs _]]. discriminate. }
  unfold missing_env. rewrite !orb_false_iff, !H. tauto.
Qed.

(** The script once the check of line 16 has passed. *)
Lemma main_started env cfg ticks w :
  missing_env env = false ->
  outcome (main env cfg ticks w) = Running /\
  cycles_started (events (main env cfg ticks w)) = S ticks /\
  filter is_exit (events (main env cfg ticks w)) = [].
Proof.
  intros H. unfold main. rewrite H.
  unfold bind at 1 2 3. unfold console, emit. cbv beta iota.
  unfold bind.
  pose proof (processItems_returns_tt cfg w initial_state) as Hr.
  pose proof (processItems_starts_one cfg w initial_state) as Hc.
  pose proof (processItems_never_exits cfg w initial_state) as Hx.
  destruct (processItems cfg w initial_state) as [[t1 s1] r1].
  unfold outcome, events in Hr, Hc, Hx. cbn in Hr, Hc, Hx. subst r1.
  destruct (interval_runs ticks cfg w s1) as [Ho [Hn He]].
  destruct (interval ticks cfg w s1) as [[t2 s2] r2].
  unfold outcome, events, cycles_started in *. cbn in *. subst r2.
  cbn [fst snd filter is_poll_start is_exit].
  rewrite !filter_app, length_app, Hc, Hn, Hx, He. auto.
Qed.

(** C7, as the specification has it, fails on an answer with an empty body:
    the expected root is absent, the parser finds no document, reading the
    root at line 120 throws to the caller, and the cycle writes its line
    for a failed call. *)
Lemma parseAndLogResponse_no_document_counterexample :
  trading_post empty_body_world 1 = Respond (JStr "") /\
  parseStringPromise empty_body_world (JStr "") = Return JNull /\
  field JNull "ReviseInventoryStatusResponse" = JUndefined /\
  parseAndLogResponse (Fin 3) (JStr "") empty_body_world warm_state
    = ([], warm_state, Throw (TypeError "Cannot read properties")) /\
  events (processItems sample_settings empty_body_world warm_state)
    = cycle_head sample_settings
      ++ cycle_request sample_settings (JStr "v^1.1#i^1#r^0")
      ++ [Console LogFatalCall; Console LogPollEnd].
Proof. repeat split; reflexivity. Qed.

(** C7, amended.  When the parser turns the response into a document that
    has another root than [ReviseInventoryStatusResponse],
    [parseAndLogResponse] throws nothing: it writes the one line showing
    what was parsed and returns, with the token cache as it was; the cycle
    that called it goes on to its last line and ends normally, without the
    line of a failed call. *)
Theorem parseAndLogResponse_root_absent
    (w : world) (qty : num) (s : state) (xml parsed : jsval) :
  rootless w xml parsed ->
  parseAndLogResponse qty xml w s
    = ([Console (LogParseUnexpected parsed)], s, Return tt) /\
  forall cfg s0 t1 s1 token,
    getAccessToken w s0 = (t1, s1, Return token) ->
    trading_post w (trading_posts s1) = Respond xml ->
    processItems cfg w s0 =
      (cycle_head cfg ++ t1 ++ cycle_request cfg token
         ++ [Console (LogParseUnexpected parsed); Console LogPollEnd],
       called s1, Return tt).
Proof.
  intros H. split.
  - apply parseAndLogResponse_rootless. exact H.
  - intros cfg s0 t1 s1 token Ht Hp.
    apply (processItems_parsed cfg w s0 t1 s1 token xml
             [Console (LogParseUnexpected parsed)] Ht Hp).
    apply parseAndLogResponse_rootless. exact H.
Qed.

Lemma parseAndLogResponse_root_absent_witness :
  rootless rootless_world
           (JStr "<html><body>Service Unavailable</body></html>") other_root /\
  outcome (parseAndLogResponse (Fin 3)
             (JStr "<html><body>Service Unavailable</body></html>")
             rootless_world warm_state) = Return tt /\
  outcome (processItems sample_settings rootless_world initial_state)
    = Return tt /\
  In (Console LogPollEnd)
     (events (processItems sample_settings rootless_world initial_state)).
Proof.
  assert (H : rootless rootless_world
                (JStr "<html><body>Service Unavailable</body></html>")
                other_root).
  { repeat split. }
  split; [exact H|].
  destruct (parseAndLogResponse_root_absent rootless_world (Fin 3) warm_state
              (JStr "<html><body>Service Unavailable</body></html>")
              other_root H) as [Hparse Hcycle].
  split; [rewrite Hparse; reflexivity|].
  rewrite (Hcycle sample_settings initial_state _ _ _ eq_refl eq_refl).
  split; [reflexivity|].
  cbn. right. right. right. right. right. right. right. right. left.
  reflexivity.
Defined.

(** C8.  When one of the four required configuration values is absent, the
    script writes its diagnostic and exits with code 1, and that is all it
    does: no network request is sent.  When the four are present, the
    process does not exit: it is running after any number of timer
    firings, and no exit is among its events. *)
Theorem startup_requires_configuration
    (env : environment) (cfg : settings) (ticks : nat) (w : world) :
  (absent (EBAY_CLIENT_ID env) \/ absent (EBAY_CLIENT_SECRET env) \/
   absent (EBAY_REFRESH_TOKEN env) \/ absent (TARGET_ITEM_IDS env) ->
   main env cfg ticks w
     = ([Console LogMissingEnv; Exit 1], initial_state, Exited 1) /\
   requests (events (main env cfg ticks w)) = []) /\
  (present (EBAY_CLIENT_ID env) /\ present (EBAY_CLIENT_SECRET env) /\
   present (EBAY_REFRESH_TOKEN env) /\ present (TARGET_ITEM_IDS env) ->
   outcome (main env cfg ticks w) = Running /\
   filter is_exit (events (main env cfg ticks w)) = []).
Proof.
  split.
  - intros H. apply missing_env_absent in H.
    unfold main. rewrite H. split; reflexivity.
  - intros H. apply missing_env_present in H.
    destruct (main_started env cfg ticks w H) as [Hr [_ Hx]].
    split; assumption.
Qed.

Lemma startup_requires_configuration_witness :
  absent (EBAY_CLIENT_SECRET blank_environment) /\
  outcome (main blank_environment sample_settings 2 calm_world) = Exited 1 /\
  requests (events (main blank_environment sample_settings 2 calm_world)) = [] /\
  present (EBAY_CLIENT_ID sample_environment) /\
  outcome (main sample_environment sample_settings 2 calm_world) = Running.
Proof.
  assert (Ha : absent (EBAY_CLIENT_SECRET blank_environment))
    by (left; reflexivity).
  assert (Hp : forall v, present (Some (String "a" v))).
  { intros v. exists (String "a" v). split; [reflexivity | discriminate]. }
  assert (Hq : forall v, present (Some (String "s" v))).
  { intros v. exists (String "s" v). split; [reflexivity | discriminate]. }
  assert (Hr : forall v, present (Some (String "v" v))).
  { intros v. exists (String "v" v). split; [reflexivity | discriminate]. }
  assert (Hs : forall v, present (Some (String "1" v))).
  { intros v. exists (String "1" v). split; [reflexivity | discriminate]. }
  split; [exact Ha|].
  destruct (proj1 (startup_requires_configuration blank_environment
                     sample_settings 2 calm_world)
                  (or_intror (or_introl Ha))) as [Hm Hn].
  split; [rewrite Hm; reflexivity|]. split; [exact Hn|].
  split; [apply Hp|].
  apply (proj2 (startup_requires_configuration sample_environment
                  sample_settings 2 calm_world)).
  repeat split; [apply Hp | apply Hq | apply Hr | apply Hs].
Defined.



(** * Further properties *)

(** ** The item identifiers, line 32 *)

#[local] Arguments isWhiteSpace : simpl never.

Lemma isWhiteSpace_comma c : isWhiteSpace c = true -> c <> ","%char.
Proof. intros H ->. discriminate. Qed.

Lemma split_not_nil sep s : split sep s <> [].
Proof.
  destruct s as [|c r]; cbn; [discriminate|].
  destruct (Ascii.eqb c sep); [discriminate|].
  destruct (split sep r); discriminate.
Qed.

Lemma split_pieces sep s p : In p (split sep s) -> ~ In sep (chars p).
Proof.
  revert p. induction s as [|c r IH]; intros p; cbn.
  - intros [<-|[]]. intros [].
  - destruct (Ascii.eqb_spec c sep) as [->|Hc].
    + intros [<-|H]; [intros [] | apply IH; exact H].
    + destruct (split sep r) as [|q qs] eqn:E.
      * intros [<-|[]]. cbn. intros [H|[]]. congruence.
      * intros [<-|H].
        -- cbn. intros [H|H]; [congruence|].
           apply (IH q); [left; reflexivity | exact H].
        -- apply IH. right. exact H.
Qed.

Lemma trimStart_chars c s : In c (chars (trimStart s)) -> In c (chars s).
Proof.
  induction s as [|a r IH]; [auto|]. cbn [trimStart].
  destruct (isWhiteSpace a); [intros H; right; apply IH; exact H | auto].
Qed.

Lemma trimEnd_chars c s : In c (chars (trimEnd s)) -> In c (chars s).
Proof.
  induction s as [|a r IH]; [auto|].
  cbn [trimEnd]. destruct (blank (String a r)); [intros [] |].
  cbn. intros [H|H]; [left; exact H | right; apply IH; exact H].
Qed.

Lemma blank_trimEnd s : blank (trimEnd s) = blank s.
Proof.
  induction s as [|a r IH]; [reflexivity|].
  cbn [trimEnd]. destruct (blank (String a r)) eqn:E; [reflexivity|].
  cbn [blank] in *. rewrite IH. exact E.
Qed.

Lemma trimEnd_idempotent s : trimEnd (trimEnd s) = trimEnd s.
Proof.
  induction s as [|a r IH]; [reflexivity|].
  cbn [trimEnd]. destruct (blank (String a r)) eqn:E; [reflexivity|].
  cbn [trimEnd]. cbn [blank] in *. rewrite blank_trimEnd, E, IH. reflexivity.
Qed.

Lemma trimStart_blank s : blank s = true -> trimStart s = EmptyString.
Proof.
  induction s as [|a r IH]; [reflexivity|]. cbn.
  destruct (isWhiteSpace a); [exact IH | discriminate].
Qed.

(** What [trimStart] returns is empty or begins with a character that is
    not white space; [trimEnd] keeps that. *)
Lemma trimStart_trim s : trimStart (trim s) = trim s.
Proof.
  unfold trim. induction s as [|a r IH]; [reflexivity|].
  cbn [trimStart]. destruct (isWhiteSpace a) eqn:E; [exact IH|].
  cbn [trimEnd blank]. rewrite E. cbn. rewrite E. reflexivity.
Qed.

Lemma trim_idempotent s : trim (trim s) = trim s.
Proof.
  unfold trim at 1. rewrite trimStart_trim. unfold trim.
  apply trimEnd_idempotent.
Qed.

Lemma trim_blank s : blank s = true -> trim s = EmptyString.
Proof. intros H. unfold trim. rewrite (trimStart_blank s H). reflexivity. Qed.

Lemma trimStart_first s c rest :
  trimStart s = String c rest -> isWhiteSpace c = false.
Proof.
  induction s as [|a r IH]; [discriminate|]. cbn [trimStart].
  destruct (isWhiteSpace a) eqn:E; [exact IH|].
  intros H. injection H as <- _. exact E.
Qed.

Lemma trimEnd_empty s : trimEnd s = EmptyString -> blank s = true.
Proof. intros H. rewrite <- blank_trimEnd, H. reflexivity. Qed.

Lemma trimEnd_last s front c :
  trimEnd s = (front ++ String c EmptyString)%string -> isWhiteSpace c = false.
Proof.
  revert front. induction s as [|a r IH]; intros front.
  - destruct front; discriminate.
  - cbn [trimEnd]. destruct (blank (String a r)) eqn:E.
    + destruct front; discriminate.
    + destruct front as [|x front]; cbn [append]; intros H.
      * injection H as -> Hr. apply trimEnd_empty in Hr.
        cbn [blank] in E. rewrite Hr, andb_true_r in E. exact E.
      * injection H as _ Hr. exact (IH front Hr).
Qed.

Lemma trimEnd_first s c rest :
  trimEnd s = String c rest -> exists rest', s = String c rest'.
Proof.
  destruct s as [|a r]; [discriminate|]. cbn [trimEnd].
  destruct (blank (String a r)); [discriminate|].
  intros H. injection H as -> _. exists r. reflexivity.
Qed.

Lemma trim_bare_ends s : bare_ends (trim s).
Proof.
  unfold trim. split.
  - intros c rest H. destruct (trimEnd_first _ _ _ H) as [rest' H'].
    exact (trimStart_first s c rest' H').
  - intros front c H. exact (trimEnd_last _ front c H).
Qed.

(** X1.  Every identifier that line 32 draws from [TARGET_ITEM_IDS] is not
    empty, contains no comma, and neither begins nor ends with a white
    space character; trimming it again changes nothing. *)
Theorem ITEM_IDS_are_clean (TARGET_ITEM_IDS : string) (id : string) :
  In id (ITEM_IDS_of TARGET_ITEM_IDS) -> bare_ends id /\ clean id.
Proof.
  unfold ITEM_IDS_of. intros H. apply filter_In in H. destruct H as [H Hne].
  apply in_map_iff in H. destruct H as [p [<- Hp]].
  split; [apply trim_bare_ends|].
  split; [|split].
  - intros E. rewrite E in Hne. discriminate.
  - apply trim_idempotent.
  - intros Hc. apply (split_pieces _ _ _ Hp).
    apply trimStart_chars. apply trimEnd_chars. exact Hc.
Qed.

Lemma ITEM_IDS_are_clean_witness :
  In "222" (ITEM_IDS_of " 111 ,,222 , ") /\ bare_ends "222" /\ clean "222".
Proof.
  assert (H : In "222" (ITEM_IDS_of " 111 ,,222 , ")).
  { vm_compute. right. left. reflexivity. }
  split; [exact H|].
  exact (ITEM_IDS_are_clean " 111 ,,222 , " "222" H).
Defined.

Lemma append_assoc (a b c : string) : ((a ++ b) ++ c = a ++ (b ++ c))%string.
Proof. induction a as [|x a IH]; [reflexivity | cbn; rewrite IH; reflexivity]. Qed.

Lemma append_nil_r (a : string) : (a ++ "" = a)%string.
Proof. induction a as [|x a IH]; [reflexivity | cbn; rewrite IH; reflexivity]. Qed.

Lemma concat_cons sep x y ys :
  String.concat sep (x :: y :: ys)
    = (x ++ sep ++ String.concat sep (y :: ys))%string.
Proof. reflexivity. Qed.

Lemma split_whole sep s : ~ In sep (chars s) -> split sep s = [s].
Proof.
  induction s as [|c r IH]; [reflexivity|]. cbn. intros H.
  destruct (Ascii.eqb_spec c sep) as [->|Hc]; [exfalso; auto|].
  rewrite IH by auto. reflexivity.
Qed.

Lemma split_append sep s rest :
  ~ In sep (chars s) ->
  split sep (s ++ String sep rest) = s :: split sep rest.
Proof.
  induction s as [|c r IH]; cbn; intros H.
  - rewrite Ascii.eqb_refl. reflexivity.
  - destruct (Ascii.eqb_spec c sep) as [->|Hc]; [exfalso; auto|].
    rewrite IH by auto. reflexivity.
Qed.

(** A space in front of the text changes no trimmed piece. *)
Lemma split_leading_space s :
  map trim (split "," (String " " s)) = map trim (split "," s).
Proof.
  cbn [split]. change (Ascii.eqb " " ",") with false. cbn iota.
  destruct (split "," s) as [|p ps] eqn:E.
  - exfalso. apply (split_not_nil _ _ E).
  - reflexivity.
Qed.

Lemma ITEM_IDS_of_cons (id rest : string) :
  clean id ->
  ITEM_IDS_of (id ++ String "," rest) = id :: ITEM_IDS_of rest.
Proof.
  intros [Hne [Ht Hc]]. unfold ITEM_IDS_of.
  rewrite (split_append _ _ _ Hc). cbn [map filter]. rewrite Ht.
  destruct (String.eqb_spec id ""); [contradiction | reflexivity].
Qed.

Lemma ITEM_IDS_of_space (s : string) :
  ITEM_IDS_of (String " " s) = ITEM_IDS_of s.
Proof. unfold ITEM_IDS_of. rewrite split_leading_space. reflexivity. Qed.

Lemma ITEM_IDS_of_one (id : string) : clean id -> ITEM_IDS_of id = [id].
Proof.
  intros [Hne [Ht Hc]]. unfold ITEM_IDS_of.
  rewrite (split_whole _ _ Hc). cbn [map filter]. rewrite Ht.
  destruct (String.eqb_spec id ""); [contradiction | reflexivity].
Qed.

(** X2.  Line 32 undoes the joining of identifiers: a list of identifiers,
    each not empty, free of commas and of white space at its ends, written
    with [","] or with [", "] between them, is read back as that list. *)
Theorem ITEM_IDS_of_joined (ids : list string) :
  Forall clean ids ->
  ITEM_IDS_of (String.concat "," ids) = ids /\
  ITEM_IDS_of (String.concat ", " ids) = ids.
Proof.
  intros H. induction H as [|id ids Hid Hids [IH1 IH2]].
  - split; reflexivity.
  - destruct ids as [|id' ids].
    + split; apply ITEM_IDS_of_one; exact Hid.
    + rewrite !concat_cons. split.
      * change (id ++ "," ++ String.concat "," (id' :: ids))%string
          with (id ++ String "," (String.concat "," (id' :: ids)))%string.
        rewrite (ITEM_IDS_of_cons _ _ Hid), IH1. reflexivity.
      * change (id ++ ", " ++ String.concat ", " (id' :: ids))%string
          with (id ++ String "," (String " " (String.concat ", " (id' :: ids))))%string.
        rewrite (ITEM_IDS_of_cons _ _ Hid), ITEM_IDS_of_space, IH2.
        reflexivity.
Qed.

Lemma clean_digits_111 : clean "111".
Proof.
  split; [discriminate|]. split; [reflexivity|].
  cbn. intros [H|[H|[H|[]]]]; discriminate.
Defined.

Lemma clean_digits_222 : clean "222".
Proof.
  split; [discriminate|]. split; [reflexivity|].
  cbn. intros [H|[H|[H|[]]]]; discriminate.
Defined.

Lemma ITEM_IDS_of_joined_witness :
  Forall clean ["111"; "222"] /\
  ITEM_IDS_of "111, 222" = ["111"; "222"].
Proof.
  assert (H : Forall clean ["111"; "222"]).
  { constructor; [exact clean_digits_111|].
    constructor; [exact clean_digits_222 | constructor]. }
  split; [exact H|].
  exact (proj2 (ITEM_IDS_of_joined ["111"; "222"] H)).
Defined.

Lemma split_separators s :
  separators_only s -> Forall (fun p => blank p = true) (split "," s).
Proof.
  unfold separators_only. induction s as [|c r IH]; intros H.
  - repeat constructor.
  - inversion H as [|? ? Hc Hr]; subst. specialize (IH Hr). cbn [split].
    destruct (Ascii.eqb_spec c ",") as [->|Hne].
    + constructor; [reflexivity | exact IH].
    + destruct Hc as [Hc|Hc]; [contradiction|].
      destruct (split "," r) as [|p ps]; [repeat constructor|].
      * cbn. rewrite Hc. reflexivity.
      * inversion IH as [|? ? Hp Hps]; subst. constructor; [|exact Hps].
        cbn. rewrite Hc, Hp. reflexivity.
Qed.

Lemma blank_pieces_dropped l :
  Forall (fun p => blank p = true) l ->
  filter (fun s => negb (s =? "")%string) (map trim l) = [].
Proof.
  induction 1 as [|p l Hp Hl IH]; [reflexivity|].
  cbn [map filter]. rewrite (trim_blank p Hp). exact IH.
Qed.

(** X3.  A [TARGET_ITEM_IDS] of commas and white space only, such as [","],
    passes the check of line 16 when it is not empty, and line 32 draws no
    identifier from it: the request built from the outcome has no item
    block, whatever the quantity. *)
Theorem ITEM_IDS_of_separators (s : string) (quantity : num) :
  separators_only s ->
  ITEM_IDS_of s = [] /\
  (s <> EmptyString -> env_truthy (Some s) = true) /\
  buildReviseInventoryStatusRequest (ITEM_IDS_of s) quantity
    = (xml_open ++ xml_close)%string.
Proof.
  intros H.
  assert (E : ITEM_IDS_of s = []).
  { unfold ITEM_IDS_of. apply blank_pieces_dropped, split_separators, H. }
  split; [exact E|]. split.
  - intros Hne. cbn. destruct (String.eqb_spec s ""); [contradiction|reflexivity].
  - rewrite E. reflexivity.
Qed.

Lemma ITEM_IDS_of_separators_witness :
  separators_only " , ," /\
  ITEM_IDS_of " , ," = [] /\
  env_truthy (Some " , ,") = true.
Proof.
  assert (H : separators_only " , ,").
  { unfold separators_only. cbn.
    repeat constructor; solve [left; reflexivity | right; reflexivity]. }
  split; [exact H|].
  destruct (ITEM_IDS_of_separators " , ," (Fin 3) H) as [E [T _]].
  split; [exact E|]. apply T. discriminate.
Defined.

(** ** The request builder, lines 68-83 *)

Lemma occurrences_tagless (pat s tail : string) :
  tagless s ->
  occurrences (String "<" pat) (s ++ tail) = occurrences (String "<" pat) tail.
Proof.
  unfold tagless. induction s as [|c r IH]; intros H; [reflexivity|].
  cbn [append occurrences prefix].
  destruct (ascii_dec "<" c) as [<-|_]; [exfalso; apply H; left; reflexivity|].
  apply IH. intros Hr. apply H. right. exact Hr.
Qed.

Lemma tagless_uint d : tagless (NilEmpty.string_of_uint d).
Proof.
  unfold tagless. induction d; cbn; intros H;
    try (destruct H as [H|H]; [discriminate | auto]); auto.
Qed.

Lemma tagless_num quantity : tagless (num_to_string quantity).
Proof.
  destruct quantity as [z|].
  - unfold num_to_string, NilZero.string_of_int.
    destruct (Z.to_int z) as [d|d].
    + unfold NilZero.string_of_uint. destruct d; try apply tagless_uint.
      cbn. intros [H|[]]. discriminate.
    + unfold NilZero.string_of_uint, tagless. cbn [chars list_ascii_of_string].
      intros [H|H]; [discriminate|]. revert H.
      destruct d; try apply tagless_uint.
      cbn. intros [H|[]]. discriminate.
  - cbn. intros [H|[H|[H|[]]]]; discriminate.
Qed.

Lemma prefix_empty (s : string) : prefix "" s = true.
Proof. destruct s; reflexivity. Qed.

(** Counting a tag through one block: the fixed text is walked by
    computation, the identifier and the quantity are skipped. *)
Ltac walk_block H quantity :=
  unfold inventoryStatusBlock, nl; rewrite !append_assoc;
  cbn [append]; cbn -[append num_to_string];
  rewrite (occurrences_tagless _ _ _ H);
  cbn -[append num_to_string];
  rewrite (occurrences_tagless _ _ _ (tagless_num quantity));
  cbn -[append num_to_string]; rewrite ?prefix_empty; reflexivity.

Lemma block_counts quantity id tail :
  tagless id ->
  occurrences "<InventoryStatus>" (inventoryStatusBlock quantity id ++ tail)
    = S (occurrences "<InventoryStatus>" tail) /\
  occurrences "</InventoryStatus>" (inventoryStatusBlock quantity id ++ tail)
    = S (occurrences "</InventoryStatus>" tail) /\
  occurrences "<ItemID>" (inventoryStatusBlock quantity id ++ tail)
    = S (occurrences "<ItemID>" tail) /\
  occurrences "<Quantity>" (inventoryStatusBlock quantity id ++ tail)
    = S (occurrences "<Quantity>" tail).
Proof.
  intros H. repeat split; walk_block H quantity.
Qed.

Lemma concat_blocks (blocks : list string) (x : string) :
  String.concat "" (x :: blocks) = (x ++ String.concat "" blocks)%string.
Proof.
  destruct blocks; [cbn; rewrite append_nil_r; reflexivity | reflexivity].
Qed.

Lemma blocks_counts quantity ids tail :
  Forall tagless ids ->
  let blocks := String.concat "" (map (inventoryStatusBlock quantity) ids) in
  occurrences "<InventoryStatus>" (blocks ++ tail)
    = (length ids + occurrences "<InventoryStatus>" tail)%nat /\
  occurrences "</InventoryStatus>" (blocks ++ tail)
    = (length ids + occurrences "</InventoryStatus>" tail)%nat /\
  occurrences "<ItemID>" (blocks ++ tail)
    = (length ids + occurrences "<ItemID>" tail)%nat /\
  occurrences "<Quantity>" (blocks ++ tail)
    = (length ids + occurrences "<Quantity>" tail)%nat.
Proof.
  intros H. induction H as [|id ids Hid Hids IH].
  - repeat split.
  - cbn [map length]. cbn zeta in *. rewrite concat_blocks, append_assoc.
    destruct (block_counts quantity id
                (String.concat "" (map (inventoryStatusBlock quantity) ids)
                 ++ tail) Hid) as [B1 [B2 [B3 B4]]].
    destruct IH as [I1 [I2 [I3 I4]]].
    rewrite B1, B2, B3, B4, I1, I2, I3, I4. repeat split.
Qed.

(** X4.  When no identifier contains the character [<], the request has as
    many item blocks as there are identifiers, none for an empty list: the
    opening and the closing tag of a block, the [ItemID] tag and the
    [Quantity] tag each occur once per identifier, whatever the quantity. *)
Theorem buildRequest_one_block_per_id (itemIds : list string) (quantity : num) :
  Forall tagless itemIds ->
  let xml := buildReviseInventoryStatusRequest itemIds quantity in
  occurrences "<InventoryStatus>" xml = length itemIds /\
  occurrences "</InventoryStatus>" xml = length itemIds /\
  occurrences "<ItemID>" xml = length itemIds /\
  occurrences "<Quantity>" xml = length itemIds.
Proof.
  intros H xml.
  assert (E : xml = (xml_open
                     ++ String.concat "" (map (inventoryStatusBlock quantity) itemIds)
                     ++ xml_close)%string) by reflexivity.
  destruct (blocks_counts quantity itemIds xml_close H) as [B1 [B2 [B3 B4]]].
  rewrite E. clearbody xml. clear E xml.
  unfold xml_open, nl, dq. rewrite !append_assoc. cbn [append].
  cbn -[append String.concat xml_close inventoryStatusBlock].
  rewrite B1, B2, B3, B4.
  change (occurrences "<InventoryStatus>" xml_close) with 0%nat.
  change (occurrences "</InventoryStatus>" xml_close) with 0%nat.
  change (occurrences "<ItemID>" xml_close) with 0%nat.
  change (occurrences "<Quantity>" xml_close) with 0%nat.
  rewrite Nat.add_0_r. repeat split.
Qed.

Lemma buildRequest_one_block_per_id_witness :
  Forall tagless ["111"; "222"; "333"] /\
  occurrences "<InventoryStatus>"
    (buildReviseInventoryStatusRequest ["111"; "222"; "333"] NaN) = 3%nat.
Proof.
  assert (H : Forall tagless ["111"; "222"; "333"]).
  { repeat constructor; cbn; intros [E|[E|[E|[]]]]; discriminate. }
  split; [exact H|].
  exact (proj1 (buildRequest_one_block_per_id ["111"; "222"; "333"] NaN H)).
Defined.

(** ** What the operations leave alone *)

Section Respect.
Variable R : state -> state -> Prop.
Hypothesis R_refl : forall s, R s s.
Hypothesis R_trans : forall s1 s2 s3, R s1 s2 -> R s2 s3 -> R s1 s3.

Lemma respects_bind {A B} (m : M A) (k : A -> M B) :
  respects R m -> (forall a, respects R (k a)) -> respects R (bind m k).
Proof.
  intros Hm Hk w s. unfold bind. specialize (Hm w s). unfold final in *.
  destruct (m w s) as [[t1 s1] [a|e]]; cbn in *; [|exact Hm].
  specialize (Hk a w s1). unfold final in Hk.
  destruct (k a w s1) as [[t2 s2] r2]. cbn in *. eauto.
Qed.

Lemma respects_try_catch {A} (m : M A) (h : exn -> M A) :
  respects R m -> (forall e, respects R (h e)) -> respects R (try_catch m h).
Proof.
  intros Hm Hh w s. unfold try_catch. specialize (Hm w s). unfold final in *.
  destruct (m w s) as [[t1 s1] [a|e]]; cbn in *; [exact Hm|].
  specialize (Hh e w s1). unfold final in Hh.
  destruct (h e w s1) as [[t2 s2] r2]. cbn in *. eauto.
Qed.

Lemma respects_ret {A} (a : A) : respects R (ret a).
Proof. intros w s. apply R_refl. Qed.

Lemma respects_throw {A} (e : exn) : respects R (@throw A e).
Proof. intros w s. apply R_refl. Qed.

Lemma respects_console l : respects R (console l).
Proof. intros w s. apply R_refl. Qed.

Lemma respects_member v name : respects R (member v name).
Proof. intros w s. unfold member. destruct (nullish v); apply R_refl. Qed.

Lemma respects_for_of {A} (body : A -> M unit) l :
  (forall x, respects R (body x)) -> respects R (for_of l body).
Proof.
  intros Hbody. induction l as [|x l IH]; [apply respects_ret|].
  cbn [for_of]. apply respects_bind; [apply Hbody | intros _; exact IH].
Qed.

Lemma respects_parseAndLogResponse qty xml :
  respects R (parseAndLogResponse qty xml).
Proof.
  unfold parseAndLogResponse.
  apply respects_bind; [intros w s; apply R_refl | intros parsed].
  apply respects_bind; [apply respects_member | intros resp].
  destruct (negb (truthy resp)); [apply respects_console|].
  apply respects_bind; [apply respects_member | intros ack].
  apply respects_bind; [apply respects_console | intros _].
  apply respects_bind; [apply respects_member | intros Errors].
  apply respects_bind.
  { destruct (truthy Errors); [|apply respects_ret].
    apply respects_for_of. intros e. unfold log_error.
    apply respects_bind; [apply respects_member | intros code].
    apply respects_bind; [apply respects_member | intros short].
    apply respects_bind; [apply respects_member | intros long].
    apply respects_console. }
  intros _.
  apply respects_bind; [apply respects_member | intros InventoryStatus].
  destruct (truthy InventoryStatus); [|apply respects_ret].
  apply respects_for_of. intros i. unfold log_item.
  apply respects_bind; [apply respects_member | intros itemID].
  apply respects_bind; [apply respects_member | intros sku].
  apply respects_console.
Qed.

End Respect.

Lemma same_cache_refl s : same_cache s s.
Proof. repeat split. Qed.

Lemma same_cache_trans s1 s2 s3 :
  same_cache s1 s2 -> same_cache s2 s3 -> same_cache s1 s3.
Proof.
  unfold same_cache. intros [A1 [A2 [A3 A4]]] [B1 [B2 [B3 B4]]].
  repeat split; congruence.
Qed.

Lemma is_post_console l : l <> LogPollStart -> is_post (Console l) = false.
Proof. reflexivity. Qed.

Lemma callTradingAPI_responded xmlBody token w s data :
  trading_post w (trading_posts s) = Respond data ->
  callTradingAPI xmlBody token w s
    = ([PostTrading xmlBody token], called s, Return data).
Proof.
  intros H. unfold callTradingAPI, try_catch, axios_post_trading.
  rewrite H. reflexivity.
Qed.

Lemma callTradingAPI_rejected xmlBody token w s response message :
  trading_post w (trading_posts s) = Reject response message ->
  callTradingAPI xmlBody token w s
    = (PostTrading xmlBody token :: trading_error_lines response message,
       called s, Throw (AxiosError response message)).
Proof.
  intros H. unfold callTradingAPI, try_catch, axios_post_trading.
  rewrite H. destruct response as [[status data]|]; reflexivity.
Qed.

(** X5.  [callTradingAPI] sends exactly one request, the Trading POST of its
    two arguments, and leaves the token cache alone.  When the request is
    answered it returns the answer's body and writes nothing; when it is
    rejected it writes the status and the body of the rejection, or the
    message when there is no answer, and throws the very error it caught. *)
Theorem callTradingAPI_posts_once
    (xmlBody : string) (token : jsval) (w : world) (s : state) :
  requests (events (callTradingAPI xmlBody token w s))
    = [PostTrading xmlBody token] /\
  final (callTradingAPI xmlBody token w s) = called s /\
  same_cache s (final (callTradingAPI xmlBody token w s)) /\
  (forall data,
     trading_post w (trading_posts s) = Respond data ->
     events (callTradingAPI xmlBody token w s) = [PostTrading xmlBody token] /\
     outcome (callTradingAPI xmlBody token w s) = Return data) /\
  (forall response message,
     trading_post w (trading_posts s) = Reject response message ->
     events (callTradingAPI xmlBody token w s)
       = PostTrading xmlBody token :: trading_error_lines response message /\
     outcome (callTradingAPI xmlBody token w s)
       = Throw (AxiosError response message)).
Proof.
  destruct (trading_post w (trading_posts s)) as [data|response message] eqn:E.
  - rewrite (callTradingAPI_responded xmlBody token w s data E).
    repeat split; try reflexivity; intros; try discriminate.
    + injection H as <-. reflexivity.
  - rewrite (callTradingAPI_rejected xmlBody token w s response message E).
    repeat split; try reflexivity; intros; try discriminate.
    + destruct response as [[status data]|]; reflexivity.
    + injection H as <- <-. reflexivity.
    + injection H as <- <-. reflexivity.
Qed.

Lemma callTradingAPI_posts_once_witness :
  trading_post unavailable_world 0
    = Reject (Some (503, JStr "Service Unavailable"))
             "Request failed with status code 503" /\
  events (callTradingAPI "<x/>" (JStr "t") unavailable_world initial_state)
    = [PostTrading "<x/>" (JStr "t");
       Console (LogTradingErrorHttp 503);
       Console (LogTradingErrorData (JStr "Service Unavailable"))] /\
  outcome (callTradingAPI "<x/>" (JStr "t") calm_world initial_state)
    = Return (JStr "<ReviseInventoryStatusResponse/>").
Proof.
  split; [reflexivity|].
  destruct (callTradingAPI_posts_once "<x/>" (JStr "t") unavailable_world
              initial_state) as [_ [_ [_ [_ Hrej]]]].
  destruct (callTradingAPI_posts_once "<x/>" (JStr "t") calm_world
              initial_state) as [_ [_ [_ [Hok _]]]].
  split.
  - exact (proj1 (Hrej _ _ eq_refl)).
  - exact (proj2 (Hok _ eq_refl)).
Defined.

(** X6.  [parseAndLogResponse] only reports: whatever it is given, it sends
    no request and leaves the state as it found it.  When the parser
    rejects the text, or yields no document ([null]), the call throws
    without having written a line. *)
Theorem parseAndLogResponse_only_reports
    (qty : num) (xml : jsval) (w : world) (s : state) :
  final (parseAndLogResponse qty xml w s) = s /\
  requests (events (parseAndLogResponse qty xml w s)) = [] /\
  (forall e,
     parseStringPromise w xml = Throw e ->
     parseAndLogResponse qty xml w s = ([], s, Throw e)) /\
  (forall parsed,
     parseStringPromise w xml = Return parsed ->
     nullish parsed = true ->
     exists message,
       parseAndLogResponse qty xml w s = ([], s, Throw (TypeError message))).
Proof.
  split; [|split; [|split]].
  - symmetry.
    apply (respects_parseAndLogResponse eq (@eq_refl state) (@eq_trans state)).
  - apply (silent_parseAndLogResponse is_post is_post_console).
  - intros e H. unfold parseAndLogResponse, bind, xml2js_parse. rewrite H.
    reflexivity.
  - intros parsed H Hn. eexists.
    unfold parseAndLogResponse, bind, xml2js_parse, member. rewrite H, Hn.
    reflexivity.
Qed.

Lemma parseAndLogResponse_only_reports_witness :
  parseStringPromise garbled_world (JStr "Bad Gateway")
    = Throw (OtherError "Non-whitespace before first tag.") /\
  parseAndLogResponse (Fin 3) (JStr "Bad Gateway") garbled_world warm_state
    = ([], warm_state, Throw (OtherError "Non-whitespace before first tag.")).
Proof.
  split; [reflexivity|].
  destruct (parseAndLogResponse_only_reports (Fin 3) (JStr "Bad Gateway")
              garbled_world warm_state) as [_ [_ [Hrej _]]].
  exact (Hrej _ eq_refl).
Defined.

(** ** The token cache over several calls *)

(** X7.  A token obtained with a lifetime is reused by the next call: after
    a refresh that stored a truthy token with the lifetime [n], a call whose
    clock reading is more than 60 seconds before the first call's answer
    time plus [n] seconds returns that same token and shows no event. *)
Theorem getAccessToken_second_call_reuses (w : world) (s : state)
    (data : jsval) (n : Z) :
  stale (Date_now w (clock_reads s)) s ->
  identity_post w (identity_posts s) = Respond data ->
  nullish data = false ->
  truthy (field data "access_token") = true ->
  field data "expires_in" = JNum (Fin n) ->
  n <> 0 ->
  Date_now w (S (S (clock_reads s))) + 60000
    < Date_now w (S (clock_reads s)) + n * 1000 ->
  outcome (getAccessToken w s) = Return (field data "access_token") /\
  outcome (getAccessToken w (final (getAccessToken w s)))
    = Return (field data "access_token") /\
  events (getAccessToken w (final (getAccessToken w s))) = [] /\
  same_cache (tick (final (getAccessToken w s)))
             (final (getAccessToken w (final (getAccessToken w s)))).
Proof.
  intros Hs Hp Hn Ht He Hz Hlt. apply stale_reuse_test in Hs.
  rewrite (getAccessToken_refreshed w s data Hs Hp Hn).
  unfold outcome, final. cbn [fst snd]. split; [reflexivity|].
  rewrite getAccessToken_reuse.
  - repeat split.
  - unfold reuse_test. cbn [cachedToken tokenExpiresAt clock_reads].
    rewrite Ht, He. unfold js_or. cbn [truthy].
    destruct (Z.eqb_spec n 0) as [E|E]; [contradiction|].
    cbn. apply Z.ltb_lt. lia.
Qed.

Lemma getAccessToken_second_call_reuses_witness :
  stale (Date_now calm_world (clock_reads expiring_state)) expiring_state /\
  events (getAccessToken calm_world
            (final (getAccessToken calm_world expiring_state))) = [].
Proof.
  assert (H : stale (Date_now calm_world (clock_reads expiring_state))
                    expiring_state).
  { right. intros e He. injection He as <-. cbn. lia. }
  split; [exact H|].
  refine (proj1 (proj2 (proj2
    (getAccessToken_second_call_reuses calm_world expiring_state
       (token_body (JNum (Fin 7200))) 7200 H eq_refl eq_refl eq_refl eq_refl
       _ _)))).
  - discriminate.
  - cbn. lia.
Defined.

Lemma stale_posts_once w s :
  stale (Date_now w (clock_reads s)) s ->
  refreshes (events (getAccessToken w s)) = 1%nat.
Proof.
  intros H. apply stale_reuse_test in H.
  destruct (identity_post w (identity_posts s)) as [data|r m] eqn:Hp.
  - destruct (nullish data) eqn:Hn.
    + rewrite (getAccessToken_no_body w s data H Hp Hn). reflexivity.
    + rewrite (getAccessToken_refreshed w s data H Hp Hn). reflexivity.
  - rewrite (getAccessToken_rejected w s r m H Hp). reflexivity.
Qed.

(** X8.  A token granted for 60 seconds or less is never reused: after a
    refresh that stored the lifetime [n], with [n] at most 60 and not 0,
    the next call refreshes again as soon as the clock has not run
    backwards. *)
Theorem getAccessToken_short_lifetime_refreshes (w : world) (s : state)
    (data : jsval) (n : Z) :
  stale (Date_now w (clock_reads s)) s ->
  identity_post w (identity_posts s) = Respond data ->
  nullish data = false ->
  field data "expires_in" = JNum (Fin n) ->
  n <> 0 -> n <= 60 ->
  Date_now w (S (clock_reads s)) <= Date_now w (S (S (clock_reads s))) ->
  stale (Date_now w (clock_reads (final (getAccessToken w s))))
        (final (getAccessToken w s)) /\
  refreshes (events (getAccessToken w (final (getAccessToken w s)))) = 1%nat.
Proof.
  intros Hs Hp Hn He Hz Hle Hclock. apply stale_reuse_test in Hs.
  assert (Hstale :
    stale (Date_now w (clock_reads (final (getAccessToken w s))))
          (final (getAccessToken w s))).
  { rewrite (getAccessToken_refreshed w s data Hs Hp Hn).
    unfold final. cbn [fst snd clock_reads]. right.
    cbn [tokenExpiresAt]. rewrite He. unfold js_or. cbn [truthy].
    destruct (Z.eqb_spec n 0) as [E|E]; [contradiction|].
    cbn. intros expiry Hx. injection Hx as <-. lia. }
  split; [exact Hstale|].
  exact (stale_posts_once w _ Hstale).
Qed.

Lemma getAccessToken_short_lifetime_refreshes_witness :
  stale (Date_now short_lived_world (clock_reads initial_state)) initial_state /\
  refreshes
    (events (getAccessToken short_lived_world
               (final (getAccessToken short_lived_world initial_state))))
    = 1%nat.
Proof.
  assert (H : stale (Date_now short_lived_world (clock_reads initial_state))
                    initial_state) by (left; reflexivity).
  split; [exact H|].
  refine (proj2 (getAccessToken_short_lifetime_refreshes short_lived_world
                   initial_state (token_body (JNum (Fin 45))) 45
                   H eq_refl eq_refl eq_refl _ _ _)).
  - discriminate.
  - lia.
  - cbn. lia.
Defined.

(** X9.  A refresh whose answer holds no usable access token (none, or a
    falsy one such as the empty string) leaves the cache without a token:
    the next call refreshes again, whatever lifetime was returned. *)
Theorem getAccessToken_falsy_token_refreshes (w : world) (s : state)
    (data : jsval) :
  stale (Date_now w (clock_reads s)) s ->
  identity_post w (identity_posts s) = Respond data ->
  nullish data = false ->
  truthy (field data "access_token") = false ->
  outcome (getAccessToken w s) = Return (field data "access_token") /\
  stale (Date_now w (clock_reads (final (getAccessToken w s))))
        (final (getAccessToken w s)) /\
  refreshes (events (getAccessToken w (final (getAccessToken w s)))) = 1%nat.
Proof.
  intros Hs Hp Hn Ht. apply stale_reuse_test in Hs.
  assert (Hstale :
    stale (Date_now w (clock_reads (final (getAccessToken w s))))
          (final (getAccessToken w s))).
  { rewrite (getAccessToken_refreshed w s data Hs Hp Hn).
    unfold final. cbn [fst snd clock_reads]. left. exact Ht. }
  split; [|split; [exact Hstale | exact (stale_posts_once w _ Hstale)]].
  rewrite (getAccessToken_refreshed w s data Hs Hp Hn). reflexivity.
Qed.

Lemma getAccessToken_falsy_token_refreshes_witness :
  stale (Date_now tokenless_world (clock_reads initial_state)) initial_state /\
  refreshes
    (events (getAccessToken tokenless_world
               (final (getAccessToken tokenless_world initial_state))))
    = 1%nat.
Proof.
  assert (H : stale (Date_now tokenless_world (clock_reads initial_state))
                    initial_state) by (left; reflexivity).
  split; [exact H|].
  exact (proj2 (proj2
    (getAccessToken_falsy_token_refreshes tokenless_world initial_state
       (JObj [("expires_in", JNum (Fin 7200))]) H eq_refl eq_refl eq_refl))).
Defined.

(** ** The requests of a cycle *)

Lemma requests_app t1 t2 : requests (t1 ++ t2) = requests t1 ++ requests t2.
Proof. apply filter_app. Qed.

Lemma requests_error_lines response message :
  requests (trading_error_lines response message) = [].
Proof. destruct response as [[status data]|]; reflexivity. Qed.

Lemma processItems_after_token cfg w s t1 s1 token :
  getAccessToken w s = (t1, s1, Return token) ->
  processItems cfg w s =
    (cycle_head cfg ++ t1
       ++ Console (LogDebugSending (length (ITEM_IDS cfg)))
       :: events (call_and_report cfg token w s1) ++ [Console LogPollEnd],
     final (call_and_report cfg token w s1), Return tt).
Proof.
  intros H. unfold processItems, call_and_report, events, final, cycle_head.
  unfold bind, try_catch, console, emit, ret. rewrite H.
  cbn -[callTradingAPI parseAndLogResponse buildReviseInventoryStatusRequest].
  destruct (callTradingAPI _ token w s1) as [[t2 s2] [x|e]];
    [destruct (parseAndLogResponse _ x w s2) as [[t3 s3] [[]|e]] |];
    cbn; rewrite ?app_nil_r, <- ?app_assoc; reflexivity.
Qed.

Lemma call_and_report_spec cfg token w s :
  outcome (call_and_report cfg token w s) = Return tt /\
  requests (events (call_and_report cfg token w s))
    = [trading_request cfg token] /\
  final (call_and_report cfg token w s) = called s.
Proof.
  unfold call_and_report, trading_request.
  set (body := buildReviseInventoryStatusRequest (ITEM_IDS cfg) (DESIRED_QTY cfg)).
  clearbody body. unfold try_catch, bind.
  destruct (trading_post w (trading_posts s)) as [xml|response message] eqn:E.
  - rewrite (callTradingAPI_responded body token w s xml E).
    destruct (parseAndLogResponse_only_reports (DESIRED_QTY cfg) xml w (called s))
      as [Hs [Hq _]].
    destruct (parseAndLogResponse (DESIRED_QTY cfg) xml w (called s))
      as [[t3 s3] [[]|e]];
      unfold final, events, outcome in *; cbn [fst snd] in *; subst s3.
    + rewrite requests_app, Hq. repeat split.
    + unfold console, emit. cbn [fst snd].
      rewrite !requests_app, Hq. repeat split.
  - rewrite (callTradingAPI_rejected body token w s response message E).
    unfold final, events, outcome. cbn [fst snd console emit].
    change (PostTrading body token :: trading_error_lines response message)
      with ([PostTrading body token] ++ trading_error_lines response message).
    rewrite !requests_app, requests_error_lines. repeat split.
Qed.

Lemma getAccessToken_requests w s :
  (reusable (Date_now w (clock_reads s)) s /\
   requests (events (getAccessToken w s)) = []) \/
  (stale (Date_now w (clock_reads s)) s /\
   requests (events (getAccessToken w s)) = [PostIdentity]).
Proof.
  destruct (reuse_test (Date_now w (clock_reads s)) s) eqn:H.
  - left. split; [apply reusable_reuse_test; exact H|].
    rewrite (getAccessToken_reuse w s H). reflexivity.
  - right. split; [apply stale_reuse_test; exact H|].
    destruct (identity_post w (identity_posts s)) as [data|r m] eqn:Hp.
    + destruct (nullish data) eqn:Hn.
      * rewrite (getAccessToken_no_body w s data H Hp Hn). reflexivity.
      * rewrite (getAccessToken_refreshed w s data H Hp Hn). reflexivity.
    + rewrite (getAccessToken_rejected w s r m H Hp). reflexivity.
Qed.

Lemma processItems_requests_eq cfg w s :
  requests (events (processItems cfg w s))
    = requests (events (getAccessToken w s))
      ++ request_after cfg (outcome (getAccessToken w s)).
Proof.
  destruct (getAccessToken w s) as [[t1 s1] [token|e]] eqn:E.
  - rewrite (processItems_after_token cfg w s t1 s1 token E).
    destruct (call_and_report_spec cfg token w s1) as [_ [Hq _]].
    unfold events, outcome in *. cbn [fst snd request_after].
    rewrite !requests_app. cbn [requests filter is_post app] in *.
    rewrite requests_app, Hq. cbn. reflexivity.
  - rewrite (processItems_token_failure cfg w s t1 s1 e E).
    unfold events, outcome. cbn [fst snd request_after].
    rewrite !requests_app. cbn. rewrite !app_nil_r. reflexivity.
Qed.

Lemma processItems_same_cache cfg w s :
  same_cache (final (getAccessToken w s)) (final (processItems cfg w s)).
Proof.
  destruct (getAccessToken w s) as [[t1 s1] [token|e]] eqn:E.
  - rewrite (processItems_after_token cfg w s t1 s1 token E).
    destruct (call_and_report_spec cfg token w s1) as [_ [_ Hs]].
    unfold final in *. cbn [fst snd] in *. rewrite Hs. repeat split.
  - rewrite (processItems_token_failure cfg w s t1 s1 e E).
    apply same_cache_refl.
Qed.

(** X10.  The requests of one cycle are those of [getAccessToken] (none
    when the cached token is reused, one refresh POST otherwise) followed,
    when a token came back, by one Trading POST carrying that token and the
    request built from the configured identifiers and quantity.  When
    [getAccessToken] throws, no Trading request is sent.  A cycle leaves
    the token cache as [getAccessToken] left it. *)
Theorem processItems_requests (cfg : settings) (w : world) (s : state) :
  requests (events (processItems cfg w s))
    = requests (events (getAccessToken w s))
      ++ request_after cfg (outcome (getAccessToken w s)) /\
  (requests (events (getAccessToken w s)) = [] \/
   requests (events (getAccessToken w s)) = [PostIdentity]) /\
  same_cache (final (getAccessToken w s)) (final (processItems cfg w s)).
Proof.
  split; [apply processItems_requests_eq | split].
  - destruct (getAccessToken_requests w s) as [[_ H]|[_ H]]; auto.
  - apply processItems_same_cache.
Qed.

Lemma processItems_reusing cfg w s :
  reuse_test (Date_now w (clock_reads s)) s = true ->
  outcome (processItems cfg w s) = Return tt /\
  requests (events (processItems cfg w s))
    = [trading_request cfg (cachedToken s)] /\
  same_cache (tick s) (final (processItems cfg w s)).
Proof.
  intros H. split; [apply processItems_returns_tt|]. split.
  - rewrite processItems_requests_eq, (getAccessToken_reuse w s H). reflexivity.
  - pose proof (processItems_same_cache cfg w s) as Hc.
    rewrite (getAccessToken_reuse w s H) in Hc. exact Hc.
Qed.

(** X11.  While the clock stays more than 60 seconds before the expiry of
    the cached token, the timer's cycles send no refresh request: the
    requests of [ticks] cycles are [ticks] Trading POSTs, each carrying the
    cached token, and the cache ends as it began. *)
Theorem interval_reuses_token (cfg : settings) (w : world) (ticks : nat)
    (s : state) (expiry : Z) :
  truthy (cachedToken s) = true ->
  tokenExpiresAt s = Fin expiry ->
  (forall k, (clock_reads s <= k < clock_reads s + ticks)%nat ->
             Date_now w k + 60000 < expiry) ->
  requests (events (interval ticks cfg w s))
    = repeat (trading_request cfg (cachedToken s)) ticks /\
  refreshes (events (interval ticks cfg w s)) = 0%nat /\
  cachedToken (final (interval ticks cfg w s)) = cachedToken s /\
  tokenExpiresAt (final (interval ticks cfg w s)) = tokenExpiresAt s.
Proof.
  revert s. induction ticks as [|n IH]; intros s Ht He Hclock.
  - repeat split.
  - assert (Hr : reuse_test (Date_now w (clock_reads s)) s = true).
    { apply reusable_reuse_test. split; [exact Ht|]. exists expiry.
      split; [exact He|]. apply Hclock. lia. }
    destruct (processItems_reusing cfg w s Hr) as [Ho [Hq [C1 [C2 [C3 C4]]]]].
    cbn [interval]. unfold bind, try_catch.
    destruct (processItems cfg w s) as [[t1 s1] r1].
    unfold outcome, events, final in *. cbn [fst snd] in *. subst r1.
    cbn [tick cachedToken tokenExpiresAt clock_reads] in *.
    destruct (IH s1) as [I1 [I2 [I3 I4]]].
    + rewrite C1. exact Ht.
    + rewrite C2. exact He.
    + intros k Hk. apply Hclock. lia.
    + destruct (interval n cfg w s1) as [[t2 s2] r2].
      cbn [fst snd] in *. unfold refreshes in *.
      rewrite requests_app, filter_app, length_app, Hq, I1, I2, I3, I4, C1, C2.
      cbn [repeat app].
      assert (Hf : filter is_refresh t1 = []).
      { assert (Hsub : forall e, In e (filter is_refresh t1) ->
                                 In e (requests t1)).
        { intros e Hin. apply filter_In in Hin. destruct Hin as [Hin Hre].
          apply filter_In. split; [exact Hin|]. destruct e; try discriminate.
          reflexivity. }
        destruct (filter is_refresh t1) as [|e l] eqn:Ef; [reflexivity|].
        specialize (Hsub e (or_introl eq_refl)). rewrite Hq in Hsub.
        destruct Hsub as [<-|[]].
        assert (Hin : In (trading_request cfg (cachedToken s))
                         (filter is_refresh t1))
          by (rewrite Ef; left; reflexivity).
        apply filter_In in Hin. destruct Hin as [_ Hre]. discriminate. }
      rewrite Hf. repeat split.
Qed.

Lemma interval_reuses_token_witness :
  truthy (cachedToken warm_state) = true /\
  refreshes (events (interval 3 sample_settings calm_world warm_state)) = 0%nat /\
  length (requests (events (interval 3 sample_settings calm_world warm_state)))
    = 3%nat.
Proof.
  split; [reflexivity|].
  destruct (interval_reuses_token sample_settings calm_world 3 warm_state
              (sample_clock 0 + 7200000) eq_refl eq_refl) as [Hq [Hr _]].
  - intros k Hk. cbn [calm_world sample_world Date_now]. unfold sample_clock.
    cbn [warm_state clock_reads] in Hk. lia.
  - split; [exact Hr|]. rewrite Hq. reflexivity.
Defined.

(** X12.  When the refresh answer holds no access token, the cycle is not
    cut short: its requests are the refresh POST and a Trading POST that
    carries [undefined] as its token. *)
Theorem processItems_sends_undefined_token (cfg : settings) (w : world)
    (s : state) (data : jsval) :
  stale (Date_now w (clock_reads s)) s ->
  identity_post w (identity_posts s) = Respond data ->
  nullish data = false ->
  field data "access_token" = JUndefined ->
  requests (events (processItems cfg w s))
    = [PostIdentity; trading_request cfg JUndefined] /\
  cachedToken (final (processItems cfg w s)) = JUndefined.
Proof.
  intros Hs Hp Hn Hf. apply stale_reuse_test in Hs. split.
  - rewrite processItems_requests_eq,
      (getAccessToken_refreshed w s data Hs Hp Hn), Hf. reflexivity.
  - destruct (processItems_same_cache cfg w s) as [Hc _].
    rewrite Hc, (getAccessToken_refreshed w s data Hs Hp Hn), Hf. reflexivity.
Qed.

Lemma processItems_sends_undefined_token_witness :
  stale (Date_now tokenless_world (clock_reads initial_state)) initial_state /\
  requests (events (processItems sample_settings tokenless_world initial_state))
    = [PostIdentity; trading_request sample_settings JUndefined].
Proof.
  assert (H : stale (Date_now tokenless_world (clock_reads initial_state))
                    initial_state) by (left; reflexivity).
  split; [exact H|].
  exact (proj1 (processItems_sends_undefined_token sample_settings
                  tokenless_world initial_state
                  (JObj [("expires_in", JNum (Fin 7200))])
                  H eq_refl eq_refl eq_refl)).
Defined.

Lemma processItems_report_failure cfg w s t1 s1 token xml t2 e :
  getAccessToken w s = (t1, s1, Return token) ->
  trading_post w (trading_posts s1) = Respond xml ->
  parseAndLogResponse (DESIRED_QTY cfg) xml w (called s1)
    = (t2, called s1, Throw e) ->
  processItems cfg w s =
    (cycle_head cfg ++ t1 ++ cycle_request cfg token ++ t2
       ++ [Console LogFatalCall; Console LogPollEnd],
     called s1, Return tt).
Proof.
  intros H Hp Hparse. step. rewrite H. step. rewrite Hp. step.
  unfold called in Hparse. rewrite Hparse. cbn.
  rewrite app_nil_r, <- app_assoc. reflexivity.
Qed.

(** X13.  An answer of the Trading endpoint that the parser rejects, or in
    which it finds no document, ends the cycle as a failed call does: after
    the request the cycle writes its line for the failed call and its last
    line, and returns. *)
Theorem processItems_unreadable_answer (cfg : settings) (w : world)
    (s s1 : state) (t1 : list event) (token xml : jsval) :
  getAccessToken w s = (t1, s1, Return token) ->
  trading_post w (trading_posts s1) = Respond xml ->
  (exists e, parseStringPromise w xml = Throw e) \/
  (exists parsed, parseStringPromise w xml = Return parsed /\
                  nullish parsed = true) ->
  processItems cfg w s =
    (cycle_head cfg ++ t1 ++ cycle_request cfg token
       ++ [Console LogFatalCall; Console LogPollEnd],
     called s1, Return tt).
Proof.
  intros H Hp [[e He]|[parsed [Hd Hn]]].
  - apply (processItems_report_failure cfg w s t1 s1 token xml [] e H Hp).
    unfold parseAndLogResponse, bind, xml2js_parse. rewrite He. reflexivity.
  - apply (processItems_report_failure cfg w s t1 s1 token xml []
             (TypeError "Cannot read properties") H Hp).
    unfold parseAndLogResponse, bind, xml2js_parse, member. rewrite Hd, Hn.
    reflexivity.
Qed.

Lemma processItems_unreadable_answer_witness :
  parseStringPromise garbled_world (JStr "Bad Gateway")
    = Throw (OtherError "Non-whitespace before first tag.") /\
  outcome (processItems sample_settings garbled_world warm_state) = Return tt /\
  events (processItems sample_settings garbled_world warm_state)
    = cycle_head sample_settings
      ++ cycle_request sample_settings (JStr "v^1.1#i^1#r^0")
      ++ [Console LogFatalCall; Console LogPollEnd].
Proof.
  split; [reflexivity|].
  rewrite (processItems_unreadable_answer sample_settings garbled_world
             warm_state (tick warm_state) [] (JStr "v^1.1#i^1#r^0")
             (JStr "Bad Gateway") eq_refl eq_refl
             (or_introl (ex_intro _ _ eq_refl))).
  split; reflexivity.
Defined.

(** ** The whole script *)

Lemma processItems_trading cfg w s e :
  In e (events (processItems cfg w s)) -> is_trading e = true ->
  exists token, e = trading_request cfg token.
Proof.
  intros Hin Ht.
  assert (Hreq : In e (requests (events (processItems cfg w s)))).
  { apply filter_In. split; [exact Hin|]. destruct e; try discriminate.
    reflexivity. }
  rewrite processItems_requests_eq in Hreq. apply in_app_or in Hreq.
  destruct Hreq as [Hreq|Hreq].
  - destruct (getAccessToken_requests w s) as [[_ H]|[_ H]];
      rewrite H in Hreq; [destruct Hreq|].
    destruct Hreq as [<-|[]]. discriminate.
  - destruct (outcome (getAccessToken w s)) as [token|err]; [|destruct Hreq].
    destruct Hreq as [<-|[]]. exists token. reflexivity.
Qed.

Lemma interval_trading ticks cfg w s e :
  In e (events (interval ticks cfg w s)) -> is_trading e = true ->
  exists token, e = trading_request cfg token.
Proof.
  revert s. induction ticks as [|n IH]; intros s; [intros []|].
  cbn [interval]. unfold bind, try_catch.
  pose proof (processItems_returns_tt cfg w s) as Hr.
  pose proof (processItems_trading cfg w s e) as Hp.
  destruct (processItems cfg w s) as [[t1 s1] r1].
  unfold outcome, events in Hr, Hp. cbn [fst snd] in Hr, Hp. subst r1.
  specialize (IH s1).
  destruct (interval n cfg w s1) as [[t2 s2] r2].
  unfold events in *. cbn [fst snd] in *.
  intros Hin Ht. apply in_app_or in Hin. destruct Hin; auto.
Qed.

(** X14.  Every Trading request the script sends, in its first cycle and in
    the cycles of the timer, carries the request built from the
    identifiers that line 32 draws from [TARGET_ITEM_IDS] and the quantity
    of line 33, which is 3 when [TARGET_STOCK] is unset or empty. *)
Theorem script_trading_requests (env : environment) (opt : options)
    (ticks : nat) (w : world) :
  (forall e,
     In e (events (script env opt ticks w)) -> is_trading e = true ->
     exists token,
       e = PostTrading
             (buildReviseInventoryStatusRequest
                (ITEM_IDS_of (env_or (TARGET_ITEM_IDS env) ""))
                (Number_or w (TARGET_STOCK opt) 3))
             token) /\
  (absent (TARGET_STOCK opt) -> Number_or w (TARGET_STOCK opt) 3 = Fin 3).
Proof.
  split.
  - intros e. unfold script, main.
    destruct (missing_env env).
    + cbn. intros [<-|[<-|[]]]; discriminate.
    + set (cfg := constants env opt w).
      change (buildReviseInventoryStatusRequest _ _)
        with (buildReviseInventoryStatusRequest (ITEM_IDS cfg) (DESIRED_QTY cfg)).
      unfold bind. unfold console, emit. cbv beta iota.
      pose proof (processItems_returns_tt cfg w initial_state) as Hr.
      pose proof (processItems_trading cfg w initial_state e) as Hp.
      destruct (processItems cfg w initial_state) as [[t1 s1] r1].
      unfold outcome, events in Hr, Hp. cbn [fst snd] in Hr, Hp. subst r1.
      pose proof (interval_trading ticks cfg w s1 e) as Hi.
      destruct (interval ticks cfg w s1) as [[t2 s2] [[]|err]];
        unfold events in *; cbn [fst snd app] in *;
        (intros [<-|[<-|[<-|Hin]]] Ht; try discriminate;
         apply in_app_or in Hin; destruct Hin; auto).
  - intros [H|H]; unfold Number_or; rewrite H; reflexivity.
Qed.

Lemma script_trading_requests_witness :
  In (PostTrading (buildReviseInventoryStatusRequest ["111"; "222"] (Fin 3))
                  (JStr "v^1.1#i^1#r^0"))
     (events (script sample_environment
                {| EBAY_ENVIRONMENT := None; TARGET_STOCK := None;
                   POLL_INTERVAL_MS := None |} 0 calm_world)) /\
  exists token,
    PostTrading (buildReviseInventoryStatusRequest ["111"; "222"] (Fin 3))
                (JStr "v^1.1#i^1#r^0")
    = PostTrading
        (buildReviseInventoryStatusRequest (ITEM_IDS_of "111, 222") (Fin 3))
        token.
Proof.
  assert (Hin :
    In (PostTrading (buildReviseInventoryStatusRequest ["111"; "222"] (Fin 3))
                    (JStr "v^1.1#i^1#r^0"))
       (events (script sample_environment
                  {| EBAY_ENVIRONMENT := None; TARGET_STOCK := None;
                     POLL_INTERVAL_MS := None |} 0 calm_world))).
  { vm_compute. do 9 right. left. reflexivity. }
  split; [exact Hin|].
  exact (proj1 (script_trading_requests sample_environment
                  {| EBAY_ENVIRONMENT := None; TARGET_STOCK := None;
                     POLL_INTERVAL_MS := None |} 0 calm_world)
               _ Hin eq_refl).
Defined.

Lemma lower_idempotent c : lower (lower c) = lower c.
Proof.
  destruct c as [[] [] [] [] [] [] [] []]; reflexivity.
Qed.

Lemma toLowerCase_idempotent s : toLowerCase (toLowerCase s) = toLowerCase s.
Proof.
  induction s as [|c r IH]; [reflexivity|].
  cbn. rewrite lower_idempotent, IH. reflexivity.
Qed.

Lemma toLowerCase_empty s : toLowerCase s = EmptyString <-> s = EmptyString.
Proof. destruct s; cbn; split; congruence. Qed.

Ltac lower_inverse :=
  let c := fresh "c" in
  let H := fresh "H" in
  intros c H;
  destruct c as [[] [] [] [] [] [] [] []];
  vm_compute in H; try discriminate H; auto.

Lemma lower_s : forall c, lower c = "s"%char -> (c = "s" \/ c = "S")%char.
Proof. lower_inverse. Qed.

Lemma lower_a : forall c, lower c = "a"%char -> (c = "a" \/ c = "A")%char.
Proof. lower_inverse. Qed.

Lemma lower_n : forall c, lower c = "n"%char -> (c = "n" \/ c = "N")%char.
Proof. lower_inverse. Qed.

Lemma lower_d : forall c, lower c = "d"%char -> (c = "d" \/ c = "D")%char.
Proof. lower_inverse. Qed.

Lemma lower_b : forall c, lower c = "b"%char -> (c = "b" \/ c = "B")%char.
Proof. lower_inverse. Qed.

Lemma lower_o : forall c, lower c = "o"%char -> (c = "o" \/ c = "O")%char.
Proof. lower_inverse. Qed.

Lemma lower_x : forall c, lower c = "x"%char -> (c = "x" \/ c = "X")%char.
Proof. lower_inverse. Qed.

Lemma toLowerCase_sandbox s :
  toLowerCase s = "sandbox"%string <-> sandbox_spelling s.
Proof.
  split.
  - intros H.
    destruct s as [|c1 [|c2 [|c3 [|c4 [|c5 [|c6 [|c7 [|c8 s]]]]]]]];
      try discriminate H.
    cbn [toLowerCase] in H.
    injection H as H1 H2 H3 H4 H5 H6 H7.
    exists c1, c2, c3, c4, c5, c6, c7. split; [reflexivity|].
    auto 10 using lower_s, lower_a, lower_n, lower_d, lower_b, lower_o, lower_x.
  - intros [c1 [c2 [c3 [c4 [c5 [c6 [c7 [-> [H1 [H2 [H3 [H4 [H5 [H6 H7]]]]]]]]]]]]]].
    destruct H1 as [-> | ->]; destruct H2 as [-> | ->];
    destruct H3 as [-> | ->]; destruct H4 as [-> | ->];
    destruct H5 as [-> | ->]; destruct H6 as [-> | ->];
    destruct H7 as [-> | ->]; reflexivity.
Qed.

(** X15.  The environment selector is read without regard to the case of
    its letters: [IS_SANDBOX] holds exactly when the selector spells
    sandbox, each letter capital or small.  An unset or empty selector
    means production, with site 77 and the production endpoints. *)
Theorem IS_SANDBOX_ignores_case (env : environment) (w : world)
    (selector stock interval_ms : option string) :
  (forall s,
     selector = Some s ->
     (IS_SANDBOX (constants env
                    {| EBAY_ENVIRONMENT := selector;
                       TARGET_STOCK := stock;
                       POLL_INTERVAL_MS := interval_ms |} w) = true
      <-> sandbox_spelling s)) /\
  (absent selector ->
   let cfg := constants env {| EBAY_ENVIRONMENT := selector;
                               TARGET_STOCK := stock;
                               POLL_INTERVAL_MS := interval_ms |} w in
   IS_SANDBOX cfg = false /\
   EBAY_SITE_ID cfg = "77"%string /\
   IDENTITY_BASE cfg = "https://api.ebay.com/identity/v1/oauth2/token"%string /\
   TRADING_ENDPOINT cfg = "https://api.ebay.com/ws/api.dll"%string).
Proof.
  split.
  - intros s ->. cbn [constants IS_SANDBOX EBAY_ENVIRONMENT env_or].
    rewrite <- toLowerCase_sandbox.
    destruct (String.eqb_spec s "") as [->|Hne].
    + split; discriminate.
    + apply String.eqb_eq.
  - intros [->| ->]; repeat split.
Qed.

Lemma sandbox_spelling_mixed : sandbox_spelling "SandBox".
Proof.
  exists "S"%char, "a"%char, "n"%char, "d"%char, "B"%char, "o"%char, "x"%char.
  repeat split; auto.
Defined.

Lemma IS_SANDBOX_ignores_case_witness :
  sandbox_spelling "SandBox" /\
  IS_SANDBOX (constants sample_environment
                {| EBAY_ENVIRONMENT := Some "SandBox"; TARGET_STOCK := None;
                   POLL_INTERVAL_MS := None |} calm_world) = true /\
  absent None /\
  EBAY_SITE_ID (constants sample_environment
                  {| EBAY_ENVIRONMENT := None; TARGET_STOCK := None;
                     POLL_INTERVAL_MS := None |} calm_world) = "77"%string.
Proof.
  destruct (IS_SANDBOX_ignores_case sample_environment calm_world
              (Some "SandBox") None None) as [Hcase _].
  destruct (IS_SANDBOX_ignores_case sample_environment calm_world
              None None None) as [_ Hdefault].
  split; [exact sandbox_spelling_mixed|].
  split; [exact (proj2 (Hcase "SandBox" eq_refl) sandbox_spelling_mixed)|].
  split; [left; reflexivity|].
  exact (proj1 (proj2 (Hdefault (or_introl eq_refl)))).
Defined.

Lemma filter_refresh_requests t :
  filter is_refresh (requests t) = filter is_refresh t.
Proof.
  unfold requests. induction t as [|e t IH]; [reflexivity|].
  destruct e; cbn; rewrite ?IH; reflexivity.
Qed.

Lemma filter_trading_requests t :
  filter is_trading (requests t) = filter is_trading t.
Proof.
  unfold requests. induction t as [|e t IH]; [reflexivity|].
  destruct e; cbn; rewrite ?IH; reflexivity.
Qed.

Lemma processItems_at_most_once cfg w s :
  (refreshes (events (processItems cfg w s)) <= 1)%nat /\
  (length (filter is_trading (events (processItems cfg w s))) <= 1)%nat.
Proof.
  unfold refreshes.
  rewrite <- filter_refresh_requests, <- filter_trading_requests,
    processItems_requests_eq, !filter_app, !length_app.
  destruct (getAccessToken_requests w s) as [[_ H]|[_ H]]; rewrite H;
    destruct (outcome (getAccessToken w s)); cbn; lia.
Qed.

Lemma interval_at_most_once ticks cfg w s :
  (refreshes (events (interval ticks cfg w s)) <= ticks)%nat /\
  (length (filter is_trading (events (interval ticks cfg w s))) <= ticks)%nat.
Proof.
  revert s. induction ticks as [|n IH]; intros s; [split; cbn; lia|].
  cbn [interval]. unfold bind, try_catch.
  pose proof (processItems_returns_tt cfg w s) as Hr.
  pose proof (processItems_at_most_once cfg w s) as [H1 H2].
  destruct (processItems cfg w s) as [[t1 s1] r1].
  unfold outcome, events, refreshes in *. cbn [fst snd] in *. subst r1.
  destruct (IH s1) as [I1 I2].
  destruct (interval n cfg w s1) as [[t2 s2] r2].
  cbn [fst snd] in *. rewrite !filter_app, !length_app. lia.
Qed.

(** X16.  Nothing is retried: a run that has passed the startup check and
    seen [ticks] firings of the timer has sent at most one refresh request
    and at most one Trading request for each of its [ticks + 1] cycles,
    whatever failed. *)
Theorem main_never_retries (env : environment) (cfg : settings)
    (ticks : nat) (w : world) :
  (refreshes (events (main env cfg ticks w)) <= S ticks)%nat /\
  (length (filter is_trading (events (main env cfg ticks w))) <= S ticks)%nat.
Proof.
  unfold main. destruct (missing_env env); [split; cbn; lia|].
  unfold bind. unfold console, emit. cbv beta iota.
  pose proof (processItems_returns_tt cfg w initial_state) as Hr.
  pose proof (processItems_at_most_once cfg w initial_state) as [H1 H2].
  destruct (processItems cfg w initial_state) as [[t1 s1] r1].
  unfold outcome, events, refreshes in *. cbn [fst snd] in *. subst r1.
  destruct (interval_at_most_once ticks cfg w s1) as [I1 I2].
  destruct (interval ticks cfg w s1) as [[t2 s2] [[]|err]];
    unfold events, refreshes in *; cbn [fst snd app filter is_refresh is_trading] in *;
    rewrite !filter_app, !length_app; lia.
Qed.
